(** * vision_analysis.py: the Gemini adapter behind the legacy vision API

    A shallow embedding of [src/vision_analysis.py].  The three operations
    ([analyze_images_with_gpt4_vision], [detect_important_pages],
    [get_important_panels]) run in a small exception-and-trace monad; the
    library calls they make ([os.getenv], [base64.b64decode], [Image.open],
    [GenerativeModel.generate_content]) are fields of a [World] record, and
    [json.loads] and [re.search] are modelled by executable definitions.

    The interpreter's limits that [json.loads] can hit (the recursion limit
    and the digit limit of [int]) are parameters, and so is the outcome of
    writing to the standard output.

    What the model leaves out: memory, the numeric value of floats (a float
    is kept as the literal it was read from), and the message and position
    of an exception raised by [json.loads] (the document it was parsing is
    kept). *)

From Stdlib Require Import List NArith ZArith Bool String Ascii Lia.
Import ListNotations.

Set Implicit Arguments.

(** ** Python strings *)

(** A Python [str] is a sequence of Unicode code points. *)
Definition pystr := list N.

(** Literals.  [str] reads a Rocq string as code points. *)
Definition str (s : string) : pystr :=
  List.map N_of_ascii (list_ascii_of_string s).

(** [js] does the same and reads an apostrophe as the double quote
    (code point 34), so that JSON texts can be written as literals. *)
Definition js (s : string) : pystr :=
  List.map (fun c => if N.eqb c 39 then 34%N else c) (str s).

Definition pystr_eqb (a b : pystr) : bool :=
  if list_eq_dec N.eq_dec a b then true else false.

Module Ch.
Definition tab : N := 9.
Definition lf : N := 10.
Definition cr : N := 13.
Definition space : N := 32.
Definition dquote : N := 34.
Definition plus : N := 43.
Definition comma : N := 44.
Definition minus : N := 45.
Definition dot : N := 46.
Definition slash : N := 47.
Definition zero : N := 48.
Definition nine : N := 57.
Definition colon : N := 58.
Definition lbracket : N := 91.
Definition backslash : N := 92.
Definition rbracket : N := 93.
Definition lbrace : N := 123.
Definition rbrace : N := 125.
End Ch.

(** ** Python values produced by [json.loads] *)

Unset Elimination Schemes.
Inductive pyvalue : Type :=
| PyNone
| PyBool (b : bool)
| PyInt (z : Z)
| PyFloat (literal : pystr)
| PyStr (s : pystr)
| PyList (l : list pyvalue)
| PyDict (d : list (pystr * pyvalue)).
Set Elimination Schemes.

(** A [dict] keeps its keys in insertion order, each key once. *)
Definition pydict := list (pystr * pyvalue).

Fixpoint dict_get (d : pydict) (k : pystr) : option pyvalue :=
  match d with
  | [] => None
  | (k', v) :: d' => if pystr_eqb k' k then Some v else dict_get d' k
  end.

(** [d[k] = v]: an existing key keeps its place and takes the new value. *)
Fixpoint dict_set (d : pydict) (k : pystr) (v : pyvalue) : pydict :=
  match d with
  | [] => [(k, v)]
  | (k', v') :: d' =>
      if pystr_eqb k' k then (k', v) :: d' else (k', v') :: dict_set d' k v
  end.

Definition dict_keys (d : pydict) : list pystr := List.map fst d.

Definition type_name (v : pyvalue) : pystr :=
  match v with
  | PyNone => str "NoneType"
  | PyBool _ => str "bool"
  | PyInt _ => str "int"
  | PyFloat _ => str "float"
  | PyStr _ => str "str"
  | PyList _ => str "list"
  | PyDict _ => str "dict"
  end.

Definition is_dict (v : pyvalue) : bool :=
  match v with PyDict _ => true | _ => false end.

(** ** Exceptions *)

Inductive exc_class : Type :=
| KeyboardInterrupt
| SystemExit
| GeneratorExit
| ValueError
| JSONDecodeError
| AttributeError
| RecursionError
| OtherException (name : string)
| OtherBaseException (name : string).

(** [issubclass(c, Exception)].  [KeyboardInterrupt], [SystemExit] and
    [GeneratorExit] derive from [BaseException] only; [OtherBaseException]
    stands for every other class that does ([asyncio.CancelledError],
    [BaseExceptionGroup], [BaseException] itself), [OtherException] for
    every other class that derives from [Exception]. *)
Definition issubclass_Exception (c : exc_class) : bool :=
  match c with
  | KeyboardInterrupt | SystemExit | GeneratorExit => false
  | OtherBaseException _ => false
  | ValueError | JSONDecodeError | AttributeError | RecursionError => true
  | OtherException _ => true
  end.

Definition issubclass_JSONDecodeError (c : exc_class) : bool :=
  match c with JSONDecodeError => true | _ => false end.

(** An exception object.  [exn_args] is what the model keeps of its data:
    the message, for the error the module raises itself and for
    [AttributeError]; the document being parsed, for an exception raised by
    [json_loads]. *)
Record exn : Type := mkExn { exn_class : exc_class; exn_args : pystr }.

Inductive outcome (A : Type) : Type :=
| Return (a : A)
| Raise (e : exn).
Arguments Raise {A} e.

(** ** [json.loads]

    The scanner follows CPython's [_json] accelerator ([scan_once],
    [scanstring] with [strict=True], [_match_number], [_parse_object],
    [_parse_array]) and [JSONDecoder.decode].  Every grammar error there is a
    [JSONDecodeError]; the scanner below reports it as [Bad].  Two limits of
    the interpreter stop it with another exception, at the place of the
    text where they are hit: entering an object or an array when the
    recursion limit leaves no room raises [RecursionError] ([TooDeep]), and
    an integer literal of more digits than [int] converts raises
    [ValueError] ([TooManyDigits]). *)

(** The limits of the interpreter at the call of [json.loads].  The
    recursion limit bounds how many objects and arrays the scanner enters,
    one inside the other; what it leaves depends on the limit that is set
    and on the frames in use at the call, so it is a parameter.  A call
    that gets as far as [json.loads] is taken to have room for an object
    that holds an array, the shape of the replies the operations read (a
    list under [important_pages] or [important_panels]);
    [nesting_headroom] counts the containers that can be entered beyond
    these two.  [int_max_str_digits] is [sys.get_int_max_str_digits()],
    0 for no limit. *)
Record limits : Type := {
  nesting_headroom : nat;
  int_max_str_digits : nat
}.

Definition nesting_limit (L : limits) : nat := S (S (nesting_headroom L)).

(** The limit applies to conversions of more than 640 digits. *)
Definition exceeds_digit_limit (max_digits digits : nat) : bool :=
  Nat.ltb 640 digits && Nat.ltb 0 max_digits && Nat.ltb max_digits digits.

Inductive scan (A : Type) : Type :=
| Ok (a : A) (rest : pystr)
| Bad
| TooDeep
| TooManyDigits
| OutOfFuel.
Arguments Bad {A}.
Arguments TooDeep {A}.
Arguments TooManyDigits {A}.
Arguments OutOfFuel {A}.

Definition is_whitespace (c : N) : bool :=
  N.eqb c Ch.space || N.eqb c Ch.tab || N.eqb c Ch.lf || N.eqb c Ch.cr.

Fixpoint skip_ws (s : pystr) : pystr :=
  match s with
  | c :: r => if is_whitespace c then skip_ws r else s
  | [] => []
  end.

Fixpoint strip_prefix (p s : pystr) : option pystr :=
  match p, s with
  | [], _ => Some s
  | a :: p', b :: s' => if N.eqb a b then strip_prefix p' s' else None
  | _ :: _, [] => None
  end.

Definition is_digit (c : N) : bool := N.leb Ch.zero c && N.leb c Ch.nine.

Definition hex_val (c : N) : option N :=
  if is_digit c then Some (c - 48)%N
  else if N.leb 97 c && N.leb c 102 then Some (c - 87)%N
  else if N.leb 65 c && N.leb c 70 then Some (c - 55)%N
  else None.

Definition hex4 (a b c d : N) : option N :=
  match hex_val a, hex_val b, hex_val c, hex_val d with
  | Some x, Some y, Some z, Some w => Some (((x * 16 + y) * 16 + z) * 16 + w)%N
  | _, _, _, _ => None
  end.

Definition is_high_surrogate (u : N) : bool := N.leb 55296 u && N.leb u 56319.
Definition is_low_surrogate (u : N) : bool := N.leb 56320 u && N.leb u 57343.
Definition join_surrogates (hi lo : N) : N :=
  (65536 + ((hi - 55296) * 1024 + (lo - 56320)))%N.

Definition unescape (c : N) : option N :=
  if N.eqb c Ch.dquote then Some Ch.dquote
  else if N.eqb c Ch.backslash then Some Ch.backslash
  else if N.eqb c Ch.slash then Some Ch.slash
  else if N.eqb c 98 then Some 8%N
  else if N.eqb c 102 then Some 12%N
  else if N.eqb c 110 then Some Ch.lf
  else if N.eqb c 114 then Some Ch.cr
  else if N.eqb c 116 then Some Ch.tab
  else None.

(** The low half of a surrogate pair, when the text goes on with one. *)
Definition low_surrogate_escape (s : pystr) : option (N * pystr) :=
  match s with
  | b :: u :: g1 :: g2 :: g3 :: g4 :: r =>
      if N.eqb b Ch.backslash && N.eqb u 117 then
        match hex4 g1 g2 g3 g4 with
        | Some lo => if is_low_surrogate lo then Some (lo, r) else None
        | None => None
        end
      else None
  | _ => None
  end.

(** [scanstring s acc]: [s] starts just after the opening quote, [acc] holds
    the characters read so far, last first. *)
Fixpoint scanstring (s : pystr) (acc : pystr) : scan pystr :=
  match s with
  | [] => Bad
  | c :: r =>
      if N.eqb c Ch.dquote then Ok (List.rev acc) r
      else if N.eqb c Ch.backslash then
        match r with
        | [] => Bad
        | e :: r1 =>
            if N.eqb e 117 then
              match r1 with
              | h1 :: h2 :: h3 :: h4 :: r2 =>
                  match hex4 h1 h2 h3 h4 with
                  | None => Bad
                  | Some u =>
                      if is_high_surrogate u then
                        match r2 with
                        | b :: u' :: g1 :: g2 :: g3 :: g4 :: r3 =>
                            match low_surrogate_escape r2 with
                            | Some (lo, _) =>
                                scanstring r3 (join_surrogates u lo :: acc)
                            | None => scanstring r2 (u :: acc)
                            end
                        | _ => scanstring r2 (u :: acc)
                        end
                      else scanstring r2 (u :: acc)
                  end
              | _ => Bad
              end
            else
              match unescape e with
              | Some x => scanstring r1 (x :: acc)
              | None => Bad
              end
        end
      else if N.leb c 31 then Bad
      else scanstring r (c :: acc)
  end.

Fixpoint span_digits (s : pystr) : pystr * pystr :=
  match s with
  | c :: r =>
      if is_digit c then let (d, r') := span_digits r in (c :: d, r')
      else ([], s)
  | [] => ([], [])
  end.

Definition digits_value (ds : pystr) : Z :=
  List.fold_left (fun a c => (a * 10 + Z.of_N (c - 48))%Z) ds 0%Z.

(** The integer part: [0], or a non-zero digit and more digits. *)
Definition match_int_part (s : pystr) : option (pystr * pystr) :=
  match s with
  | [] => None
  | c :: r =>
      if N.leb 49 c && N.leb c Ch.nine then
        let (d, r') := span_digits r in Some (c :: d, r')
      else if N.eqb c Ch.zero then Some ([c], r)
      else None
  end.

(** A dot is part of the number only when a digit follows it. *)
Definition match_frac_part (s : pystr) : pystr * pystr :=
  match s with
  | d :: f :: r =>
      if N.eqb d Ch.dot && is_digit f then
        let (fd, r') := span_digits r in (d :: f :: fd, r')
      else ([], s)
  | _ => ([], s)
  end.

(** An exponent is read, and given back when no digit follows. *)
Definition match_exp_part (s : pystr) : pystr * pystr :=
  match s with
  | e :: r =>
      if N.eqb e 101 || N.eqb e 69 then
        let (sg, r1) :=
          match r with
          | c :: r' =>
              if N.eqb c Ch.minus || N.eqb c Ch.plus then ([c], r') else ([], r)
          | [] => ([], r)
          end in
        let (ed, r2) := span_digits r1 in
        match ed with
        | [] => ([], s)
        | _ :: _ => (e :: sg ++ ed, r2)
        end
      else ([], s)
  | [] => ([], s)
  end.

Definition match_number (max_digits : nat) (s : pystr) : scan pyvalue :=
  let (sign, s1) :=
    match s with
    | c :: r => if N.eqb c Ch.minus then ([c], r) else ([], s)
    | [] => ([], s)
    end in
  match match_int_part s1 with
  | None => Bad
  | Some (ds, r1) =>
      let (frac, r2) := match_frac_part r1 in
      let (ex, r3) := match_exp_part r2 in
      match frac, ex with
      | [], [] =>
          if exceeds_digit_limit max_digits (List.length ds) then TooManyDigits
          else
            Ok (PyInt (match sign with
                       | [] => digits_value ds
                       | _ :: _ => - digits_value ds
                       end)%Z) r3
      | _, _ => Ok (PyFloat (sign ++ ds ++ frac ++ ex)) r3
      end
  end.

(** The constants, then a number. *)
Definition scan_atom (max_digits : nat) (s : pystr) : scan pyvalue :=
  match strip_prefix (str "null") s with
  | Some r => Ok PyNone r
  | None =>
  match strip_prefix (str "true") s with
  | Some r => Ok (PyBool true) r
  | None =>
  match strip_prefix (str "false") s with
  | Some r => Ok (PyBool false) r
  | None =>
  match strip_prefix (str "NaN") s with
  | Some r => Ok (PyFloat (str "NaN")) r
  | None =>
  match strip_prefix (str "Infinity") s with
  | Some r => Ok (PyFloat (str "Infinity")) r
  | None =>
  match strip_prefix (str "-Infinity") s with
  | Some r => Ok (PyFloat (str "-Infinity")) r
  | None => match_number max_digits s
  end end end end end end.

(** [scan_once] reads one JSON term at the head of [s]; [depth] is how many
    more objects and arrays can be entered.  [object_loop] and [array_loop]
    are the bodies of [_parse_object] and [_parse_array] for a non-empty
    container; [acc] holds the members read so far. *)
Fixpoint scan_once (max_digits fuel depth : nat) (s : pystr) {struct fuel}
  : scan pyvalue :=
  match fuel with
  | O => OutOfFuel
  | S f =>
      match s with
      | [] => Bad
      | c :: r =>
          if N.eqb c Ch.dquote then
            match scanstring r [] with
            | Ok k r' => Ok (PyStr k) r'
            | Bad => Bad
            | TooDeep => TooDeep
            | TooManyDigits => TooManyDigits
            | OutOfFuel => OutOfFuel
            end
          else if N.eqb c Ch.lbrace then
            match depth with
            | O => TooDeep
            | S d =>
                match skip_ws r with
                | c1 :: r1 =>
                    if N.eqb c1 Ch.rbrace then Ok (PyDict []) r1
                    else object_loop max_digits f d (c1 :: r1) []
                | [] => Bad
                end
            end
          else if N.eqb c Ch.lbracket then
            match depth with
            | O => TooDeep
            | S d =>
                match skip_ws r with
                | c1 :: r1 =>
                    if N.eqb c1 Ch.rbracket then Ok (PyList []) r1
                    else array_loop max_digits f d (c1 :: r1) []
                | [] => Bad
                end
            end
          else scan_atom max_digits s
      end
  end
with object_loop (max_digits fuel depth : nat) (s : pystr) (acc : pydict)
  {struct fuel} : scan pyvalue :=
  match fuel with
  | O => OutOfFuel
  | S f =>
      match s with
      | [] => Bad
      | c :: r =>
          if N.eqb c Ch.dquote then
            match scanstring r [] with
            | Ok key r1 =>
                match skip_ws r1 with
                | c2 :: r2 =>
                    if N.eqb c2 Ch.colon then
                      match scan_once max_digits f depth (skip_ws r2) with
                      | Ok v r3 =>
                          let acc' := dict_set acc key v in
                          match skip_ws r3 with
                          | c4 :: r4 =>
                              if N.eqb c4 Ch.rbrace then Ok (PyDict acc') r4
                              else if N.eqb c4 Ch.comma then
                                object_loop max_digits f depth (skip_ws r4) acc'
                              else Bad
                          | [] => Bad
                          end
                      | Bad => Bad
                      | TooDeep => TooDeep
                      | TooManyDigits => TooManyDigits
                      | OutOfFuel => OutOfFuel
                      end
                    else Bad
                | [] => Bad
                end
            | Bad => Bad
            | TooDeep => TooDeep
            | TooManyDigits => TooManyDigits
            | OutOfFuel => OutOfFuel
            end
          else Bad
      end
  end
with array_loop (max_digits fuel depth : nat) (s : pystr)
  (acc : list pyvalue) {struct fuel} : scan pyvalue :=
  match fuel with
  | O => OutOfFuel
  | S f =>
      match scan_once max_digits f depth s with
      | Ok v r1 =>
          match skip_ws r1 with
          | c2 :: r2 =>
              if N.eqb c2 Ch.rbracket then Ok (PyList (acc ++ [v])) r2
              else if N.eqb c2 Ch.comma then
                array_loop max_digits f depth (skip_ws r2) (acc ++ [v])
              else Bad
          | [] => Bad
          end
      | Bad => Bad
      | TooDeep => TooDeep
      | TooManyDigits => TooManyDigits
      | OutOfFuel => OutOfFuel
      end
  end.

(** [json.loads(s)]: leading white space, one term, trailing white space,
    end of text.  A grammar error raises [JSONDecodeError], a limit of the
    interpreter [RecursionError] or a plain [ValueError]. *)
Definition json_loads (L : limits) (s : pystr) : outcome pyvalue :=
  match scan_once (int_max_str_digits L) (S (2 * List.length s))
          (nesting_limit L) (skip_ws s) with
  | Ok v r =>
      match skip_ws r with
      | [] => Return v
      | _ :: _ => Raise (mkExn JSONDecodeError s)
      end
  | TooDeep => Raise (mkExn RecursionError s)
  | TooManyDigits => Raise (mkExn ValueError s)
  | Bad | OutOfFuel => Raise (mkExn JSONDecodeError s)
  end.

(** Limits that no text of the length of [s] can hit. *)
Definition unlimited_for (s : pystr) : limits :=
  {| nesting_headroom := List.length s; int_max_str_digits := 0 |}.

(** A scanner result that is no limit of the interpreter. *)
Definition within_limits {A : Type} (r : scan A) : Prop :=
  r <> TooDeep /\ r <> TooManyDigits.

(** ** [re.search]

    The patterns the module uses are sequences of literal characters and
    [.*]; with [re.DOTALL] the dot matches every character.  [match_here]
    is a backtracking matcher, the star greedy: it takes the longest run
    first and gives characters back one at a time.  It returns the text
    matched ([Match.group()]). *)

Inductive re_atom : Type :=
| Lit (c : N)
| DotStar.

Fixpoint match_here (p : list re_atom) (s : pystr) {struct p} : option pystr :=
  match p with
  | [] => Some []
  | Lit c :: p' =>
      match s with
      | x :: s' =>
          if N.eqb x c then
            match match_here p' s' with
            | Some m => Some (x :: m)
            | None => None
            end
          else None
      | [] => None
      end
  | DotStar :: p' =>
      (fix star (s : pystr) : option pystr :=
         match s with
         | [] => match_here p' []
         | x :: s' =>
             match star s' with
             | Some m => Some (x :: m)
             | None => match_here p' s
             end
         end) s
  end.

(** The leftmost position at which the pattern matches. *)
Fixpoint re_search (p : list re_atom) (s : pystr) : option pystr :=
  match match_here p s with
  | Some m => Some m
  | None =>
      match s with
      | [] => None
      | _ :: s' => re_search p s'
      end
  end.

(** [r'\{.*\}'] *)
Definition brace_pattern : list re_atom :=
  [Lit Ch.lbrace; DotStar; Lit Ch.rbrace].

(** The pattern after its opening brace. *)
Definition to_close : list re_atom := [DotStar; Lit Ch.rbrace].

(** The specification's reading of the fallback: the text from the first
    opening brace to the closing brace that matches it, braces counted by
    nesting depth.  [spec_matching_close depth s] is the text up to and
    including the brace that closes [depth] open ones. *)
Fixpoint spec_matching_close (depth : nat) (s : pystr) : option pystr :=
  match s with
  | [] => None
  | c :: r =>
      if N.eqb c Ch.lbrace then
        option_map (cons c) (spec_matching_close (S depth) r)
      else if N.eqb c Ch.rbrace then
        match depth with
        | O => Some [c]
        | S d => option_map (cons c) (spec_matching_close d r)
        end
      else option_map (cons c) (spec_matching_close depth r)
  end.

Fixpoint spec_first_brace_delimited (s : pystr) : option pystr :=
  match s with
  | [] => None
  | c :: r =>
      if N.eqb c Ch.lbrace then option_map (cons c) (spec_matching_close 0 r)
      else spec_first_brace_delimited r
  end.

(** ** The monad of the operations: exceptions and a trace of effects *)

(** An opened image, backed by the bytes it was read from. *)
Record image : Type := PILImage { image_data : list N }.

Inductive part : Type :=
| Text (s : pystr)
| Img (i : image).

Record GenerativeModel : Type := { model_name : pystr }.

Record GenerationConfig : Type := { response_mime_type : pystr }.

(** The response object of the client: reading [response.text] can raise. *)
Record response : Type := { text : outcome pystr }.

Inductive event : Type :=
| EvConfigure (api_key : pystr)
| EvGenerateContent (model : GenerativeModel) (contents : list part)
    (generation_config : option GenerationConfig)
| EvPrint (line : pystr).

(** What the module depends on from outside: the process environment, the
    decoders, the remote model, the standard output ([stdout_write line] is
    the outcome of [print(line)]: a write can fail) and the limits of the
    interpreter. *)
Record World : Type := {
  os_getenv : pystr -> option pystr;
  b64decode : pystr -> outcome (list N);
  Image_open : list N -> outcome image;
  remote : GenerativeModel -> list part -> option GenerationConfig ->
           outcome response;
  exn_str : exn -> pystr;
  stdout_write : pystr -> outcome unit;
  interpreter : limits
}.

Definition M (A : Type) : Type := list event -> outcome A * list event.

Definition ret {A : Type} (a : A) : M A := fun t => (Return a, t).

Definition raise {A : Type} (e : exn) : M A := fun t => (Raise e, t).

Definition lift {A : Type} (o : outcome A) : M A := fun t => (o, t).

Definition bind {A B : Type} (m : M A) (k : A -> M B) : M B :=
  fun t =>
    match m t with
    | (Return a, t') => k a t'
    | (Raise e, t') => (Raise e, t')
    end.

Definition emit (e : event) : M unit := fun t => (Return tt, t ++ [e]).

(** [try: body except C as e: handler e], [C] given by the classes it
    catches. *)
Definition try_except {A : Type} (body : M A) (catches : exc_class -> bool)
    (handler : exn -> M A) : M A :=
  fun t =>
    match body t with
    | (Return a, t') => (Return a, t')
    | (Raise e, t') =>
        if catches (exn_class e) then handler e t' else (Raise e, t')
    end.

Declare Scope py_scope.
Delimit Scope py_scope with py.
Notation "x <- m ;; k" := (bind m (fun x => k))
  (at level 100, m at next level, right associativity) : py_scope.
Notation "m ;;; k" := (bind m (fun _ => k))
  (at level 100, right associativity) : py_scope.
Open Scope py_scope.

(** A list comprehension over a call that can raise. *)
Fixpoint mapM {A B : Type} (f : A -> M B) (l : list A) : M (list B) :=
  match l with
  | [] => ret []
  | a :: l' => b <- f a ;; bs <- mapM f l' ;; ret (b :: bs)
  end.

(** [print(line)]: the call is an effect, whatever becomes of the write. *)
Definition print (W : World) (line : pystr) : M unit :=
  emit (EvPrint line) ;;; lift (stdout_write W line).

(** [v.get(k, default)]: only a [dict] has the method. *)
Definition py_get (v : pyvalue) (k : pystr) (default : pyvalue)
  : outcome pyvalue :=
  match v with
  | PyDict d =>
      Return (match dict_get d k with Some x => x | None => default end)
  | _ =>
      Raise (mkExn AttributeError
               (str "'" ++ type_name v ++ str "' object has no attribute 'get'"))
  end.

(** ** The module *)

(** The response object handed to the caller, in the shape of the former
    API. *)
Record MockMessage : Type := { content : pystr }.
Record MockChoice : Type := { message : MockMessage }.
Record MockUsage : Type := { total_tokens : Z }.
Record MockResponse : Type := { choices : list MockChoice; usage : MockUsage }.

Definition new_MockResponse (content : pystr) (tokens : Z) : MockResponse :=
  {| choices := [ {| message := {| content := content |} |} ];
     usage := {| total_tokens := tokens |} |}.

Definition json_mode : GenerationConfig :=
  {| response_mime_type := str "application/json" |}.

Section Adapter.

Variable W : World.

Definition get_gemini_model : M GenerativeModel :=
  let api_key := os_getenv W (str "GOOGLE_API_KEY") in
  match api_key with
  | None | Some [] =>
      raise (mkExn ValueError
               (str "GOOGLE_API_KEY environment variable is not set. Please add it to your .env file."))
  | Some key =>
      emit (EvConfigure key) ;;;
      let model_name :=
        match os_getenv W (str "GEMINI_MODEL_NAME") with
        | Some name => name
        | None => str "gemini-1.5-flash"
        end in
      ret {| model_name := model_name |}
  end.

Definition base64_to_pil (base64_str : pystr) : M image :=
  image_data <- lift (b64decode W base64_str) ;;
  lift (Image_open W image_data).

(** [model.generate_content(contents, generation_config=...)] *)
Definition generate_content (model : GenerativeModel) (contents : list part)
    (generation_config : option GenerationConfig) : M response :=
  emit (EvGenerateContent model contents generation_config) ;;;
  lift (remote W model contents generation_config).

Definition analyze_images_with_gpt4_vision {Client : Type}
    (character_profiles pages : list pystr) (client : Client)
    (prompt instructions detail : pystr) : M MockResponse :=
  model <- get_gemini_model ;;
  let contents :=
    [ Text (str "System Instructions: " ++ instructions ++ [Ch.lf; Ch.lf]);
      Text (str "Here are some character profile pages, for your reference:") ] in
  imgs <- mapM base64_to_pil character_profiles ;;
  let contents := contents ++ List.map Img imgs in
  let contents :=
    contents ++ [ Text ([Ch.lf] ++ str "Prompt: " ++ prompt ++ [Ch.lf]) ] in
  imgs <- mapM base64_to_pil pages ;;
  let contents := contents ++ List.map Img imgs in
  response <- generate_content model contents None ;;
  response_text <- lift (text response) ;;
  ret (new_MockResponse response_text 0).

Definition detect_important_pages {Client : Type}
    (profile_reference chapter_reference pages : list pystr)
    (client : Client) (prompt instructions detail : pystr) : M pydict :=
  model <- get_gemini_model ;;
  let contents :=
    [ Text (str "System Instructions: " ++ instructions ++ [Ch.lf; Ch.lf]);
      Text (str "Here are some character profile pages, for your reference:") ] in
  imgs <- mapM base64_to_pil profile_reference ;;
  let contents := contents ++ List.map Img imgs in
  let contents :=
    contents ++
    [ Text ([Ch.lf] ++ str "Here are some chapter start pages, for your reference:") ] in
  imgs <- mapM base64_to_pil chapter_reference ;;
  let contents := contents ++ List.map Img imgs in
  let contents :=
    contents ++ [ Text ([Ch.lf] ++ str "Prompt: " ++ prompt ++ [Ch.lf]) ] in
  imgs <- mapM base64_to_pil pages ;;
  let contents := contents ++ List.map Img imgs in
  response <- generate_content model contents (Some json_mode) ;;
  response_text <- lift (text response) ;;
  parsed_response <-
    try_except (lift (json_loads (interpreter W) response_text))
      issubclass_JSONDecodeError
      (fun caught =>
         let json_match := re_search brace_pattern response_text in
         match json_match with
         | Some group => lift (json_loads (interpreter W) group)
         | None =>
             print W (str "Failed to parse JSON from Gemini response.") ;;;
             raise caught
         end) ;;
  important <-
    lift (py_get parsed_response (str "important_pages") (PyList [])) ;;
  ret [ (str "total_tokens", PyInt 0); (str "parsed_response", important) ].

Definition get_important_panels {Client : Type}
    (profile_reference panels : list pystr) (client : Client)
    (prompt instructions detail : pystr) : M pydict :=
  model <- get_gemini_model ;;
  let contents :=
    [ Text (str "System Instructions: " ++ instructions ++ [Ch.lf; Ch.lf]);
      Text (str "Here are some character profile pages, for your reference:") ] in
  imgs <- mapM base64_to_pil profile_reference ;;
  let contents := contents ++ List.map Img imgs in
  let contents :=
    contents ++ [ Text ([Ch.lf] ++ str "Prompt: " ++ prompt ++ [Ch.lf]) ] in
  imgs <- mapM base64_to_pil panels ;;
  let contents := contents ++ List.map Img imgs in
  (* [None] stands for the [return] inside the handler *)
  attempt <-
    try_except
      (response <- generate_content model contents (Some json_mode) ;;
       response_text <- lift (text response) ;;
       ret (Some response_text))
      issubclass_Exception
      (fun e =>
         print W (str "Gemini Error during panel identification: "
                  ++ exn_str W e) ;;;
         ret None) ;;
  match attempt with
  | None =>
      ret [ (str "total_tokens", PyInt 0);
            (str "parsed_response", PyList []) ]
  | Some response_text =>
      parsed_response <-
        try_except (lift (json_loads (interpreter W) response_text))
          issubclass_JSONDecodeError
          (fun _ =>
             let json_match := re_search brace_pattern response_text in
             match json_match with
             | Some group => lift (json_loads (interpreter W) group)
             | None => ret (PyDict [ (str "important_panels", PyList []) ])
             end) ;;
      important <-
        lift (py_get parsed_response (str "important_panels") (PyList [])) ;;
      ret [ (str "total_tokens", PyInt 0);
            (str "parsed_response", important) ]
  end.

End Adapter.

(** ** Worlds to run the module in *)

(** The limits of a default interpreter at a call a few frames deep. *)
Definition sample_limits : limits :=
  {| nesting_headroom := 990; int_max_str_digits := 4300 |}.

(** The credential is set, every image decodes, the standard output takes
    every line, and the remote model answers every request with [reply]. *)
Definition world_with (reply : outcome response) : World :=
  {| os_getenv := fun name =>
       if pystr_eqb name (str "GOOGLE_API_KEY") then Some (str "secret")
       else None;
     b64decode := fun s => Return s;
     Image_open := fun data => Return (PILImage data);
     remote := fun _ _ _ => reply;
     exn_str := exn_args;
     stdout_write := fun _ => Return tt;
     interpreter := sample_limits |}.

(** The same with no credential in the environment. *)
Definition world_without_key (reply : outcome response) : World :=
  {| os_getenv := fun _ => None;
     b64decode := fun s => Return s;
     Image_open := fun data => Return (PILImage data);
     remote := fun _ _ _ => reply;
     exn_str := exn_args;
     stdout_write := fun _ => Return tt;
     interpreter := sample_limits |}.

Definition says (t : pystr) : outcome response :=
  Return {| text := Return t |}.

(** ** Vocabulary of the statements *)

(** The credential is there and truthy: [if not api_key] is not taken. *)
Definition credential_set (W : World) : Prop :=
  exists key, os_getenv W (str "GOOGLE_API_KEY") = Some key /\ key <> [].

(** [base64_to_pil] returns an image for this string. *)
Definition decodable (W : World) (base64_str : pystr) : Prop :=
  exists data img,
    b64decode W base64_str = Return data /\ Image_open W data = Return img.

(** The model client answers every request with [reply]. *)
Definition remote_replies (W : World) (reply : outcome response) : Prop :=
  forall model contents config, remote W model contents config = reply.

(** The two lines the module prints. *)
Definition parse_diagnostic : pystr :=
  str "Failed to parse JSON from Gemini response.".

Definition panel_diagnostic (W : World) (e : exn) : pystr :=
  str "Gemini Error during panel identification: " ++ exn_str W e.

(** What a handler gives that first prints [line] and then gives [o]: the
    exception of the print when the write fails. *)
Definition after_print {A : Type} (W : World) (line : pystr) (o : outcome A)
  : outcome A :=
  match stdout_write W line with
  | Return _ => o
  | Raise e => Raise e
  end.

(** [{"total_tokens": 0, "parsed_response": v}] *)
Definition structured_result (v : pyvalue) : pydict :=
  [ (str "total_tokens", PyInt 0); (str "parsed_response", v) ].

(** The text has a brace-delimited part: an opening brace and, somewhere
    after it, a closing brace. *)
Definition has_braces (s : pystr) : Prop :=
  exists a b c, s = a ++ Ch.lbrace :: b ++ Ch.rbrace :: c.

Definition missing_credential_error : exn :=
  mkExn ValueError
    (str "GOOGLE_API_KEY environment variable is not set. Please add it to your .env file.").

Definition no_get_error (v : pyvalue) : exn :=
  mkExn AttributeError
    (str "'" ++ type_name v ++ str "' object has no attribute 'get'").

(** ** Sample inputs *)

Definition sample_images : list pystr := [str "aW1hZ2Ux"; str "aW1hZ2Uy"].

(** A response cut short by the model: the pattern finds braces in it, what
    it finds is not JSON. *)
Definition truncated_text : pystr :=
  js "{'important_panels': [{'id': 1}, {'id'".

(** A response with two objects, the first of them complete. *)
Definition two_objects_text : pystr :=
  js "{'important_pages': ['p1']} and {'note': 1}".

Definition first_object_text : pystr := js "{'important_pages': ['p1']}".

Definition keyboard_interrupt : exn := mkExn KeyboardInterrupt [].

Definition connection_error : exn :=
  mkExn (OtherException "ConnectionError") (str "connection reset").

(** A response that opens a thousand arrays and closes none. *)
Definition deep_brackets_text : pystr := List.repeat Ch.lbracket 1000.

(** ** Vocabulary for the effects of an operation *)

(** [base64_to_pil] returns [img] for this string. *)
Definition decodes_to (W : World) (base64_str : pystr) (img : image) : Prop :=
  exists data,
    b64decode W base64_str = Return data /\ Image_open W data = Return img.

(** [base64_to_pil] raises [e] for this string: in the base64 decoder, or in
    [Image.open] on the decoded bytes. *)
Definition undecodable (W : World) (base64_str : pystr) (e : exn) : Prop :=
  b64decode W base64_str = Raise e \/
  exists data,
    b64decode W base64_str = Return data /\ Image_open W data = Raise e.

(** The first string of [l] that does not decode raises [e]. *)
Definition fails_first (W : World) (l : list pystr) (e : exn) : Prop :=
  exists l1 s l2,
    l = l1 ++ s :: l2 /\ Forall (decodable W) l1 /\ undecodable W s e.

(** The model the environment selects. *)
Definition chosen_model (W : World) : GenerativeModel :=
  {| model_name :=
       match os_getenv W (str "GEMINI_MODEL_NAME") with
       | Some name => name
       | None => str "gemini-1.5-flash"
       end |}.

Definition is_remote_call (ev : event) : bool :=
  match ev with EvGenerateContent _ _ _ => true | _ => false end.

(** The number of requests to the remote model among these effects. *)
Definition remote_calls (es : list event) : nat :=
  List.length (List.filter is_remote_call es).

(** Running [m] only adds effects, at most [n] remote calls among them. *)
Definition sends_at_most {A : Type} (n : nat) (m : M A) : Prop :=
  forall t, exists es, snd (m t) = t ++ es /\ remote_calls es <= n.

(** Whatever [m] returns satisfies [P]. *)
Definition returns_only {A : Type} (P : A -> Prop) (m : M A) : Prop :=
  forall t a, fst (m t) = Return a -> P a.

Definition is_Return {A : Type} (o : outcome A) : bool :=
  match o with Return _ => true | Raise _ => false end.

Definition raises_class {A : Type} (c : exc_class -> bool) (o : outcome A)
  : bool :=
  match o with Return _ => false | Raise e => c (exn_class e) end.

(** ** More worlds *)

(** A world with the given credential, in which the strings [bad] names do
    not decode, and the remote model answers every request with [reply]. *)
Definition world_of (key : option pystr) (bad : pystr -> option exn)
    (reply : outcome response) : World :=
  {| os_getenv := fun name =>
       if pystr_eqb name (str "GOOGLE_API_KEY") then key
       else if pystr_eqb name (str "GEMINI_MODEL_NAME")
            then Some (str "gemini-1.5-pro")
            else None;
     b64decode := fun s =>
       match bad s with Some e => Raise e | None => Return s end;
     Image_open := fun data => Return (PILImage data);
     remote := fun _ _ _ => reply;
     exn_str := exn_args;
     stdout_write := fun _ => Return tt;
     interpreter := sample_limits |}.

Definition padding_error : exn :=
  mkExn (OtherException "binascii.Error") (str "Incorrect padding").

Definition bad_padding (s : pystr) : option exn :=
  if pystr_eqb s (str "aW1hZ2U") then Some padding_error else None.

Definition blocked_error : exn :=
  mkExn ValueError (str "The response was blocked.").

(** Images of which the last has lost its padding. *)
Definition damaged_images : list pystr := [str "aW1hZ2Uz"; str "aW1hZ2U"].

(** A response that is an object, its entries not lists. *)
Definition untyped_object_text : pystr :=
  js "{'important_pages': 'all', 'important_panels': 3}".

(** A response in which the pattern finds braces around text that is not
    JSON. *)
Definition prose_with_braces_text : pystr := js "pages {1, 2} matter".

Definition closed_stdout_error : exn :=
  mkExn ValueError (str "I/O operation on closed file.").

(** [world_with reply] with the standard output closed. *)
Definition world_with_closed_stdout (reply : outcome response) : World :=
  {| os_getenv := os_getenv (world_with reply);
     b64decode := b64decode (world_with reply);
     Image_open := Image_open (world_with reply);
     remote := remote (world_with reply);
     exn_str := exn_str (world_with reply);
     stdout_write := fun _ => Raise closed_stdout_error;
     interpreter := interpreter (world_with reply) |}.

(** A response that is one integer of 4301 digits. *)
Definition long_integer_text : pystr := List.repeat 49%N 4301.

(** * Facts about the scanner *)

Unset Implicit Arguments.

Lemma pystr_eqb_eq (a b : pystr) : pystr_eqb a b = true <-> a = b.
Proof.
  unfold pystr_eqb. destruct (list_eq_dec N.eq_dec a b); split; congruence.
Qed.

Lemma skip_ws_length (s : pystr) : List.length (skip_ws s) <= List.length s.
Proof.
  induction s as [|c r IH]; simpl; [lia|].
  destruct (is_whitespace c); simpl; lia.
Qed.

Lemma strip_prefix_length (p s r : pystr) :
  strip_prefix p s = Some r -> List.length r + List.length p = List.length s.
Proof.
  revert s; induction p as [|a p IH]; intros [|b s]; simpl; intros H;
    try discriminate; try (injection H as <-; simpl; lia).
  destruct (N.eqb a b); [|discriminate]. apply IH in H. lia.
Qed.

Lemma span_digits_length (s d r : pystr) :
  span_digits s = (d, r) -> List.length r <= List.length s.
Proof.
  revert d r; induction s as [|c s IH]; simpl; intros d r H.
  - injection H as <- <-. simpl; lia.
  - destruct (is_digit c).
    + destruct (span_digits s) as [d' r'] eqn:E. injection H as <- <-.
      specialize (IH _ _ eq_refl). lia.
    + injection H as <- <-. simpl; lia.
Qed.

Lemma scanstring_length_aux (n : nat) :
  forall s acc, List.length s <= n ->
    scanstring s acc <> OutOfFuel /\
    forall k r, scanstring s acc = Ok k r -> List.length r < List.length s.
Proof.
  induction n as [|n IH]; intros s acc Hn.
  - destruct s; [|simpl in Hn; lia]. simpl. split; [discriminate|discriminate].
  - destruct s as [|c r]; [simpl; split; discriminate|].
    simpl in Hn. simpl.
    destruct (N.eqb c Ch.dquote).
    { split; [discriminate|]. intros k r' H. injection H as _ <-. lia. }
    destruct (N.eqb c Ch.backslash).
    2:{ destruct (N.leb c 31); [split; discriminate|].
        destruct (IH r (c :: acc)) as [A B]; [lia|]. split; [exact A|].
        intros k r' H. apply B in H. lia. }
    destruct r as [|e r1]; [split; discriminate|].
    destruct (N.eqb e 117).
    2:{ destruct (unescape e); [|split; discriminate].
        destruct (IH r1 (n0 :: acc)) as [A B]; [simpl in Hn; lia|].
        split; [exact A|]. intros k r' H. apply B in H. simpl. lia. }
    destruct r1 as [|h1 [|h2 [|h3 [|h4 r2]]]]; try (split; discriminate).
    destruct (hex4 h1 h2 h3 h4) as [u|]; [|split; discriminate].
    simpl in Hn.
    assert (Hr2 : forall acc',
      scanstring r2 acc' <> OutOfFuel /\
      forall k r', scanstring r2 acc' = Ok k r' ->
        List.length r' < S (S (S (S (S (S (List.length r2))))))).
    { intros acc'. destruct (IH r2 acc') as [A B]; [lia|]. split; [exact A|].
      intros k r' H. apply B in H. lia. }
    destruct (is_high_surrogate u); [|apply Hr2].
    destruct r2 as [|b [|u' [|g1 [|g2 [|g3 [|g4 r3]]]]]]; try apply Hr2.
    destruct (low_surrogate_escape _) as [[lo ?]|]; [|apply Hr2].
    destruct (IH r3 (join_surrogates u lo :: acc)) as [A B]; [simpl in Hn; lia|].
    split; [exact A|]. intros k r' H. apply B in H. simpl. lia.
Qed.

Lemma scanstring_length (s acc k r : pystr) :
  scanstring s acc = Ok k r -> List.length r < List.length s.
Proof. apply (scanstring_length_aux (List.length s) s acc (le_n _)). Qed.

Lemma scanstring_fuel (s acc : pystr) : scanstring s acc <> OutOfFuel.
Proof. apply (scanstring_length_aux (List.length s) s acc (le_n _)). Qed.

Lemma match_number_length (max_digits : nat) (s : pystr) :
  match_number max_digits s <> OutOfFuel /\
  forall v r,
    match_number max_digits s = Ok v r -> List.length r < List.length s.
Proof.
  unfold match_number.
  set (p := match s with
            | c :: r => if N.eqb c Ch.minus then ([c], r) else ([], s)
            | [] => ([], s)
            end).
  assert (Hp : List.length (snd p) <= List.length s).
  { subst p. destruct s as [|c r]; simpl; [lia|].
    destruct (N.eqb c Ch.minus); simpl; lia. }
  destruct p as [sign s1]. simpl in Hp.
  destruct (match_int_part s1) as [[ds r1]|] eqn:Ei; [|split; discriminate].
  assert (H1 : List.length r1 < List.length s1).
  { unfold match_int_part in Ei. destruct s1 as [|c r]; [discriminate|].
    destruct (N.leb 49 c && N.leb c Ch.nine).
    - destruct (span_digits r) as [d r'] eqn:E. injection Ei as _ <-.
      apply span_digits_length in E. simpl; lia.
    - destruct (N.eqb c Ch.zero); [|discriminate]. injection Ei as _ <-.
      simpl; lia. }
  destruct (match_frac_part r1) as [frac r2] eqn:Ef.
  assert (H2 : List.length r2 <= List.length r1).
  { unfold match_frac_part in Ef.
    destruct r1 as [|d [|f r]]; try (injection Ef as _ <-; simpl; lia).
    destruct (N.eqb d Ch.dot && is_digit f).
    - destruct (span_digits r) as [fd r'] eqn:E. injection Ef as _ <-.
      apply span_digits_length in E. simpl; lia.
    - injection Ef as _ <-. simpl; lia. }
  destruct (match_exp_part r2) as [ex r3] eqn:Ee.
  assert (H3 : List.length r3 <= List.length r2).
  { unfold match_exp_part in Ee. destruct r2 as [|e r]; [injection Ee as _ <-; simpl; lia|].
    destruct (N.eqb e 101 || N.eqb e 69); [|injection Ee as _ <-; simpl; lia].
    set (q := match r with
              | c :: r' =>
                  if N.eqb c Ch.minus || N.eqb c Ch.plus then ([c], r') else ([], r)
              | [] => ([], r)
              end) in Ee.
    assert (Hq : List.length (snd q) <= List.length r).
    { subst q. destruct r as [|c r']; simpl; [lia|].
      destruct (N.eqb c Ch.minus || N.eqb c Ch.plus); simpl; lia. }
    destruct q as [sg r1']. simpl in Hq.
    destruct (span_digits r1') as [ed r2'] eqn:E. apply span_digits_length in E.
    destruct ed; injection Ee as _ <-; simpl; lia. }
  split.
  - destruct frac, ex; try discriminate.
    destruct (exceeds_digit_limit _ _); discriminate.
  - intros v r H. assert (r = r3) as ->; [|lia].
    destruct frac, ex; try congruence.
    destruct (exceeds_digit_limit _ _); congruence.
Qed.

Lemma scan_atom_length (max_digits : nat) (s : pystr) :
  scan_atom max_digits s <> OutOfFuel /\
  forall v r,
    scan_atom max_digits s = Ok v r -> List.length r < List.length s.
Proof.
  unfold scan_atom.
  repeat match goal with
  | |- context [strip_prefix ?p s] =>
      let E := fresh "E" in
      destruct (strip_prefix p s) eqn:E;
      [ apply strip_prefix_length in E; simpl in E; split;
        [discriminate | intros v r H; injection H as _ <-; lia] | ]
  end.
  apply match_number_length.
Qed.

(** The fuel [json_loads] gives is enough: with more than twice as much
    fuel as characters, the scanner never runs out, and every term it reads
    is non-empty. *)
Lemma scan_fuel_enough (max_digits fuel : nat) :
  (forall depth s, 2 * List.length s < fuel ->
     scan_once max_digits fuel depth s <> OutOfFuel /\
     forall v r, scan_once max_digits fuel depth s = Ok v r ->
       List.length r < List.length s) /\
  (forall depth s acc, 2 * List.length s + 1 < fuel ->
     object_loop max_digits fuel depth s acc <> OutOfFuel /\
     forall v r, object_loop max_digits fuel depth s acc = Ok v r ->
       List.length r < List.length s) /\
  (forall depth s acc, 2 * List.length s + 1 < fuel ->
     array_loop max_digits fuel depth s acc <> OutOfFuel /\
     forall v r, array_loop max_digits fuel depth s acc = Ok v r ->
       List.length r < List.length s).
Proof.
  induction fuel as [|f (IHs & IHo & IHa)].
  { repeat split; intros; lia. }
  split; [|split].
  - intros depth s Hlen. simpl. destruct s as [|c r]; [split; discriminate|].
    simpl in Hlen.
    destruct (N.eqb c Ch.dquote).
    { destruct (scanstring r []) as [k r'| | | |] eqn:E;
        try (split; discriminate).
      - apply scanstring_length in E. split; [discriminate|].
        intros v r0 H. injection H as _ <-. simpl; lia.
      - exfalso. exact (scanstring_fuel _ _ E). }
    destruct (N.eqb c Ch.lbrace).
    { destruct depth as [|d]; [split; discriminate|].
      pose proof (skip_ws_length r) as Hw.
      destruct (skip_ws r) as [|c1 r1]; [split; discriminate|]. simpl in Hw.
      destruct (N.eqb c1 Ch.rbrace).
      - split; [discriminate|]. intros v r0 H. injection H as _ <-. simpl; lia.
      - destruct (IHo d (c1 :: r1) []) as [A B]; [simpl; lia|].
        split; [exact A|].
        intros v r0 H. apply B in H. simpl in *. lia. }
    destruct (N.eqb c Ch.lbracket).
    { destruct depth as [|d]; [split; discriminate|].
      pose proof (skip_ws_length r) as Hw.
      destruct (skip_ws r) as [|c1 r1]; [split; discriminate|]. simpl in Hw.
      destruct (N.eqb c1 Ch.rbracket).
      - split; [discriminate|]. intros v r0 H. injection H as _ <-. simpl; lia.
      - destruct (IHa d (c1 :: r1) []) as [A B]; [simpl; lia|].
        split; [exact A|].
        intros v r0 H. apply B in H. simpl in *. lia. }
    apply (scan_atom_length max_digits (c :: r)).
  - intros depth s acc Hlen. simpl.
    destruct s as [|c r]; [split; discriminate|].
    simpl in Hlen.
    destruct (N.eqb c Ch.dquote); [|split; discriminate].
    destruct (scanstring r []) as [key r1| | | |] eqn:E;
      try (split; discriminate);
      [|exfalso; exact (scanstring_fuel _ _ E)].
    apply scanstring_length in E.
    pose proof (skip_ws_length r1) as Hw1.
    destruct (skip_ws r1) as [|c2 r2]; [split; discriminate|]. simpl in Hw1.
    destruct (N.eqb c2 Ch.colon); [|split; discriminate].
    pose proof (skip_ws_length r2) as Hw2.
    destruct (IHs depth (skip_ws r2)) as [A B]; [lia|].
    destruct (scan_once max_digits f depth (skip_ws r2)) as [v r3| | | |] eqn:E3;
      try (split; discriminate); [|congruence].
    specialize (B _ _ eq_refl).
    pose proof (skip_ws_length r3) as Hw3.
    destruct (skip_ws r3) as [|c4 r4]; [split; discriminate|]. simpl in Hw3.
    destruct (N.eqb c4 Ch.rbrace).
    { split; [discriminate|]. intros v0 r0 H. injection H as _ <-. simpl; lia. }
    destruct (N.eqb c4 Ch.comma); [|split; discriminate].
    pose proof (skip_ws_length r4) as Hw4.
    destruct (IHo depth (skip_ws r4) (dict_set acc key v)) as [A' B']; [lia|].
    split; [exact A'|]. intros v0 r0 H. apply B' in H. simpl. lia.
  - intros depth s acc Hlen. simpl.
    destruct (IHs depth s) as [A B]; [lia|].
    destruct (scan_once max_digits f depth s) as [v r1| | | |] eqn:E1;
      try (split; discriminate); [|congruence].
    specialize (B _ _ eq_refl).
    pose proof (skip_ws_length r1) as Hw1.
    destruct (skip_ws r1) as [|c2 r2]; [split; discriminate|]. simpl in Hw1.
    destruct (N.eqb c2 Ch.rbracket).
    { split; [discriminate|]. intros v0 r0 H. injection H as _ <-. lia. }
    destruct (N.eqb c2 Ch.comma); [|split; discriminate].
    pose proof (skip_ws_length r2) as Hw2.
    destruct (IHa depth (skip_ws r2) (acc ++ [v])) as [A' B']; [lia|].
    split; [exact A'|]. intros v0 r0 H. apply B' in H. lia.
Qed.

(** [json_loads] never stops for lack of fuel. *)
Lemma json_loads_fuel (L : limits) (s : pystr) :
  scan_once (int_max_str_digits L) (S (2 * List.length s))
    (nesting_limit L) (skip_ws s) <> OutOfFuel.
Proof.
  apply (scan_fuel_enough (int_max_str_digits L) (S (2 * List.length s))).
  pose proof (skip_ws_length s). lia.
Qed.

(** *** Texts within the limits *)

Lemma scanstring_cases_aux (n : nat) :
  forall s acc, List.length s <= n ->
    scanstring s acc = Bad \/ exists k r, scanstring s acc = Ok k r.
Proof.
  induction n as [|n IH]; intros s acc Hn.
  - destruct s; [|simpl in Hn; lia]. left. reflexivity.
  - destruct s as [|c r]; [left; reflexivity|].
    simpl in Hn. simpl.
    destruct (N.eqb c Ch.dquote); [right; eauto|].
    destruct (N.eqb c Ch.backslash).
    2:{ destruct (N.leb c 31); [left; reflexivity|]. apply IH. lia. }
    destruct r as [|e r1]; [left; reflexivity|].
    destruct (N.eqb e 117).
    2:{ destruct (unescape e); [|left; reflexivity].
        apply IH. simpl in Hn. lia. }
    destruct r1 as [|h1 [|h2 [|h3 [|h4 r2]]]]; try (left; reflexivity).
    destruct (hex4 h1 h2 h3 h4) as [u|]; [|left; reflexivity].
    simpl in Hn.
    assert (Hr2 : forall acc',
      scanstring r2 acc' = Bad \/ exists k r, scanstring r2 acc' = Ok k r).
    { intros acc'. apply IH. lia. }
    destruct (is_high_surrogate u); [|apply Hr2].
    destruct r2 as [|b [|u' [|g1 [|g2 [|g3 [|g4 r3]]]]]]; try apply Hr2.
    destruct (low_surrogate_escape _) as [[lo ?]|]; [|apply Hr2].
    apply IH. simpl in Hn. lia.
Qed.

Lemma scanstring_cases (s acc : pystr) :
  scanstring s acc = Bad \/ exists k r, scanstring s acc = Ok k r.
Proof. apply (scanstring_cases_aux (List.length s) s acc (le_n _)). Qed.

Lemma match_number_unlimited (s : pystr) : within_limits (match_number 0 s).
Proof.
  unfold match_number.
  destruct (match s with
            | c :: r => if N.eqb c Ch.minus then ([c], r) else ([], s)
            | [] => ([], s)
            end) as [sign s1].
  destruct (match_int_part s1) as [[ds r1]|]; [|split; discriminate].
  destruct (match_frac_part r1) as [frac r2].
  destruct (match_exp_part r2) as [ex r3].
  assert (E : exceeds_digit_limit 0 (List.length ds) = false).
  { unfold exceeds_digit_limit. rewrite andb_false_r. reflexivity. }
  rewrite E. destruct frac, ex; split; discriminate.
Qed.

Lemma scan_atom_unlimited (s : pystr) : within_limits (scan_atom 0 s).
Proof.
  unfold scan_atom.
  repeat match goal with
  | |- context [strip_prefix ?p s] =>
      destruct (strip_prefix p s); [split; discriminate|]
  end.
  apply match_number_unlimited.
Qed.

(** With no digit limit and room for as many containers as the text has
    characters, the scanner hits no limit. *)
Lemma scan_unlimited (fuel : nat) :
  (forall depth s, 2 * List.length s < fuel -> List.length s <= depth ->
     within_limits (scan_once 0 fuel depth s)) /\
  (forall depth s acc, 2 * List.length s + 1 < fuel ->
     List.length s <= depth ->
     within_limits (object_loop 0 fuel depth s acc)) /\
  (forall depth s acc, 2 * List.length s + 1 < fuel ->
     List.length s <= depth ->
     within_limits (array_loop 0 fuel depth s acc)).
Proof.
  induction fuel as [|f (IHs & IHo & IHa)].
  { repeat split; intros; lia. }
  destruct (scan_fuel_enough 0 f) as (Fs & _ & _).
  split; [|split].
  - intros depth s Hlen Hd. simpl. destruct s as [|c r]; [split; discriminate|].
    simpl in Hlen, Hd.
    destruct (N.eqb c Ch.dquote).
    { destruct (scanstring_cases r []) as [->|(k & r' & ->)];
        split; discriminate. }
    destruct (N.eqb c Ch.lbrace).
    { destruct depth as [|d]; [lia|].
      pose proof (skip_ws_length r) as Hw.
      destruct (skip_ws r) as [|c1 r1]; [split; discriminate|]. simpl in Hw.
      destruct (N.eqb c1 Ch.rbrace); [split; discriminate|].
      apply IHo; simpl; lia. }
    destruct (N.eqb c Ch.lbracket).
    { destruct depth as [|d]; [lia|].
      pose proof (skip_ws_length r) as Hw.
      destruct (skip_ws r) as [|c1 r1]; [split; discriminate|]. simpl in Hw.
      destruct (N.eqb c1 Ch.rbracket); [split; discriminate|].
      apply IHa; simpl; lia. }
    apply scan_atom_unlimited.
  - intros depth s acc Hlen Hd. simpl.
    destruct s as [|c r]; [split; discriminate|].
    simpl in Hlen, Hd.
    destruct (N.eqb c Ch.dquote); [|split; discriminate].
    destruct (scanstring_cases r []) as [->|(key & r1 & E)];
      [split; discriminate|].
    rewrite E. apply scanstring_length in E.
    pose proof (skip_ws_length r1) as Hw1.
    destruct (skip_ws r1) as [|c2 r2]; [split; discriminate|]. simpl in Hw1.
    destruct (N.eqb c2 Ch.colon); [|split; discriminate].
    pose proof (skip_ws_length r2) as Hw2.
    destruct (IHs depth (skip_ws r2)) as [A B]; [lia|lia|].
    destruct (Fs depth (skip_ws r2)) as [_ C]; [lia|].
    destruct (scan_once 0 f depth (skip_ws r2)) as [v r3| | | |] eqn:E3;
      try (split; discriminate); try congruence.
    specialize (C _ _ eq_refl).
    pose proof (skip_ws_length r3) as Hw3.
    destruct (skip_ws r3) as [|c4 r4]; [split; discriminate|]. simpl in Hw3.
    destruct (N.eqb c4 Ch.rbrace); [split; discriminate|].
    destruct (N.eqb c4 Ch.comma); [|split; discriminate].
    pose proof (skip_ws_length r4) as Hw4.
    apply IHo; lia.
  - intros depth s acc Hlen Hd. simpl.
    destruct (IHs depth s) as [A B]; [lia|lia|].
    destruct (Fs depth s) as [_ C]; [lia|].
    destruct (scan_once 0 f depth s) as [v r1| | | |] eqn:E1;
      try (split; discriminate); try congruence.
    specialize (C _ _ eq_refl).
    pose proof (skip_ws_length r1) as Hw1.
    destruct (skip_ws r1) as [|c2 r2]; [split; discriminate|]. simpl in Hw1.
    destruct (N.eqb c2 Ch.rbracket); [split; discriminate|].
    destruct (N.eqb c2 Ch.comma); [|split; discriminate].
    pose proof (skip_ws_length r2) as Hw2.
    apply IHa; lia.
Qed.

(** Under [unlimited_for s], [json_loads] decides the grammar alone: it
    returns a value or raises [JSONDecodeError]. *)
Lemma json_loads_unlimited (s : pystr) :
  (exists v, json_loads (unlimited_for s) s = Return v) \/
  json_loads (unlimited_for s) s = Raise (mkExn JSONDecodeError s).
Proof.
  unfold json_loads. cbn [unlimited_for int_max_str_digits].
  destruct (scan_unlimited (S (2 * List.length s))) as (Hs & _ & _).
  destruct (Hs (nesting_limit (unlimited_for s)) (skip_ws s)) as [A B].
  { pose proof (skip_ws_length s). lia. }
  { pose proof (skip_ws_length s). unfold nesting_limit, unlimited_for.
    cbn [nesting_headroom]. lia. }
  destruct (scan_once 0 _ _ _) as [v r| | | |]; try congruence; auto.
  destruct (skip_ws r); eauto.
Qed.

(** The scanner on a few texts, as [json.loads] treats them. *)
Example json_loads_nested :
  json_loads sample_limits (js " {'a': [1, -2.5e3, true, null, {'b': {}}]} ")
  = Return (PyDict [ (str "a",
                      PyList [ PyInt 1; PyFloat (str "-2.5e3"); PyBool true;
                               PyNone; PyDict [ (str "b", PyDict []) ] ]) ]).
Proof. vm_compute. reflexivity. Qed.

Example json_loads_duplicate_key :
  json_loads sample_limits (js "{'k': 1, 'j': 2, 'k': 3}")
  = Return (PyDict [ (str "k", PyInt 3); (str "j", PyInt 2) ]).
Proof. vm_compute. reflexivity. Qed.

Example json_loads_escapes :
  json_loads sample_limits (js "'x\u0041\n\ud83d\ude00'")
  = Return (PyStr [120; 65; 10; 128512]%N).
Proof. vm_compute. reflexivity. Qed.

Example json_loads_trailing_comma :
  json_loads sample_limits (js "[1,]") = Raise (mkExn JSONDecodeError (js "[1,]")).
Proof. vm_compute. reflexivity. Qed.

Example json_loads_extra_data :
  json_loads sample_limits (js "{} }") = Raise (mkExn JSONDecodeError (js "{} }")).
Proof. vm_compute. reflexivity. Qed.

Example json_loads_leading_zero :
  json_loads sample_limits (str "01") = Raise (mkExn JSONDecodeError (str "01")).
Proof. vm_compute. reflexivity. Qed.

Example json_loads_minus_zero : json_loads sample_limits (str "-0") = Return (PyInt 0).
Proof. vm_compute. reflexivity. Qed.

(** * Facts about the monad and the start of every operation *)

Lemma bind_Return {A B : Type} (m : M A) (k : A -> M B) t a t' :
  m t = (Return a, t') -> bind m k t = k a t'.
Proof. unfold bind. intros ->. reflexivity. Qed.

Lemma bind_Raise {A B : Type} (m : M A) (k : A -> M B) t e t' :
  m t = (Raise e, t') -> bind m k t = (Raise e, t').
Proof. unfold bind. intros ->. reflexivity. Qed.

Lemma get_gemini_model_missing (W : World) t :
  os_getenv W (str "GOOGLE_API_KEY") = None ->
  get_gemini_model W t = (Raise missing_credential_error, t).
Proof. unfold get_gemini_model. intros ->. reflexivity. Qed.

(** An empty credential is refused like a missing one. *)
Lemma get_gemini_model_empty (W : World) t :
  os_getenv W (str "GOOGLE_API_KEY") = Some [] ->
  get_gemini_model W t = (Raise missing_credential_error, t).
Proof. unfold get_gemini_model. intros ->. reflexivity. Qed.

Lemma get_gemini_model_ok (W : World) :
  credential_set W ->
  exists key model,
    forall t, get_gemini_model W t = (Return model, t ++ [EvConfigure key]).
Proof.
  intros (key & Hk & Hne). unfold get_gemini_model. rewrite Hk.
  destruct key as [|c key]; [congruence|].
  eexists (c :: key), _. intros t. reflexivity.
Qed.

Lemma base64_to_pil_ok (W : World) s :
  decodable W s -> exists img, forall t, base64_to_pil W s t = (Return img, t).
Proof.
  intros (data & img & Hd & Hi). exists img. intros t.
  unfold base64_to_pil, bind, lift. rewrite Hd, Hi. reflexivity.
Qed.

Lemma mapM_base64_to_pil_ok (W : World) l :
  Forall (decodable W) l ->
  exists imgs, forall t, mapM (base64_to_pil W) l t = (Return imgs, t).
Proof.
  induction 1 as [|s l Hs _ (imgs & IH)].
  - exists []. reflexivity.
  - destruct (base64_to_pil_ok _ _ Hs) as (img & Hi). exists (img :: imgs).
    intros t. simpl. rewrite (bind_Return _ _ _ _ _ (Hi t)).
    rewrite (bind_Return _ _ _ _ _ (IH t)). reflexivity.
Qed.

Lemma generate_content_replies (W : World) reply model contents config t :
  remote_replies W reply ->
  generate_content W model contents config t =
  (reply, t ++ [EvGenerateContent model contents config]).
Proof.
  intros H. unfold generate_content, bind, emit, lift. simpl. rewrite H.
  destruct reply; reflexivity.
Qed.

(** [json.loads] returns a value, or raises [JSONDecodeError],
    [RecursionError] or a plain [ValueError]. *)
Lemma json_loads_raises (L : limits) (s : pystr) (e : exn) :
  json_loads L s = Raise e ->
  e = mkExn JSONDecodeError s \/ e = mkExn RecursionError s \/
  e = mkExn ValueError s.
Proof.
  unfold json_loads.
  destruct (scan_once _ _ _ _) as [v r| | | |].
  - destruct (skip_ws r); [discriminate|]. intros H. injection H as <-. auto.
  - intros H. injection H as <-. auto.
  - intros H. injection H as <-. auto.
  - intros H. injection H as <-. auto.
  - intros H. injection H as <-. auto.
Qed.

Lemma object_loop_dict (max_digits fuel : nat) :
  forall depth s acc v r,
    object_loop max_digits fuel depth s acc = Ok v r -> exists d, v = PyDict d.
Proof.
  induction fuel as [|f IH]; intros depth s acc v r; simpl; [discriminate|].
  destruct s as [|c s]; [discriminate|].
  destruct (N.eqb c Ch.dquote); [|discriminate].
  destruct (scanstring s []) as [key r1| | | |]; try discriminate.
  destruct (skip_ws r1) as [|c2 r2]; [discriminate|].
  destruct (N.eqb c2 Ch.colon); [|discriminate].
  destruct (scan_once max_digits f depth (skip_ws r2)) as [v' r3| | | |];
    try discriminate.
  destruct (skip_ws r3) as [|c4 r4]; [discriminate|].
  destruct (N.eqb c4 Ch.rbrace).
  - intros H. injection H as <- _. eauto.
  - destruct (N.eqb c4 Ch.comma); [|discriminate]. apply IH.
Qed.

Lemma scan_once_lbrace (max_digits f depth : nat) (s : pystr) :
  scan_once max_digits (S f) depth (Ch.lbrace :: s) =
  match depth with
  | O => TooDeep
  | S d =>
      match skip_ws s with
      | c1 :: r1 =>
          if N.eqb c1 Ch.rbrace then Ok (PyDict []) r1
          else object_loop max_digits f d (c1 :: r1) []
      | [] => Bad
      end
  end.
Proof. reflexivity. Qed.

(** A text that starts with an opening brace parses to a [dict] or not at
    all. *)
Lemma json_loads_object (L : limits) (s : pystr) (v : pyvalue) :
  json_loads L (Ch.lbrace :: s) = Return v -> exists d, v = PyDict d.
Proof.
  unfold json_loads.
  change (skip_ws (Ch.lbrace :: s)) with (Ch.lbrace :: s).
  destruct (scan_once _ _ _ _) as [v' r| | | |] eqn:E; try discriminate.
  destruct (skip_ws r); [|discriminate]. intros H. injection H as <-.
  rewrite scan_once_lbrace in E. unfold nesting_limit in E.
  destruct (skip_ws s) as [|c1 r1]; [discriminate|].
  destruct (N.eqb c1 Ch.rbrace).
  - injection E as <- _. eauto.
  - exact (object_loop_dict _ _ _ _ _ _ _ E).
Qed.

Lemma py_get_not_dict (v : pyvalue) (k : pystr) (d : pyvalue) :
  is_dict v = false -> py_get v k d = Raise (no_get_error v).
Proof. destruct v; simpl; intros H; try discriminate; reflexivity. Qed.

(** *** The brace pattern *)

Lemma match_here_star_cons (p : list re_atom) (x : N) (s : pystr) :
  match_here (DotStar :: p) (x :: s) =
  match match_here (DotStar :: p) s with
  | Some m => Some (x :: m)
  | None => match_here p (x :: s)
  end.
Proof. reflexivity. Qed.

Lemma match_here_star_nil (p : list re_atom) :
  match_here (DotStar :: p) [] = match_here p [].
Proof. reflexivity. Qed.

Lemma match_here_lit (c : N) (s : pystr) :
  match_here [Lit c] s =
  match s with
  | x :: _ => if N.eqb x c then Some [x] else None
  | [] => None
  end.
Proof. destruct s as [|x s]; simpl; [reflexivity|]. destruct (N.eqb x c); reflexivity. Qed.

(** The greedy star stops at the last closing brace. *)
Lemma to_close_last (mid post : pystr) :
  ~ In Ch.rbrace post ->
  match_here to_close (mid ++ Ch.rbrace :: post) = Some (mid ++ [Ch.rbrace]).
Proof.
  intros Hpost. unfold to_close.
  assert (Hnone : match_here [DotStar; Lit Ch.rbrace] post = None).
  { induction post as [|x post IH].
    - reflexivity.
    - rewrite match_here_star_cons, IH, match_here_lit.
      + destruct (N.eqb_spec x Ch.rbrace) as [->|]; [|reflexivity].
        exfalso. apply Hpost. left. reflexivity.
      + intros H. apply Hpost. right. exact H. }
  induction mid as [|x mid IH]; simpl app.
  - rewrite match_here_star_cons, Hnone, match_here_lit.
    rewrite N.eqb_refl. reflexivity.
  - rewrite match_here_star_cons, IH. reflexivity.
Qed.

Lemma to_close_Some (s m : pystr) :
  match_here to_close s = Some m ->
  exists b c, s = b ++ Ch.rbrace :: c /\ m = b ++ [Ch.rbrace].
Proof.
  unfold to_close. revert m. induction s as [|x s IH]; intros m.
  - rewrite match_here_star_nil. discriminate.
  - rewrite match_here_star_cons.
    destruct (match_here [DotStar; Lit Ch.rbrace] s) as [m'|].
    + intros H. injection H as <-.
      destruct (IH _ eq_refl) as (b & c & -> & ->).
      exists (x :: b), c. split; reflexivity.
    + rewrite match_here_lit. destruct (N.eqb_spec x Ch.rbrace) as [->|]; [|discriminate].
      intros H. injection H as <-. exists [], s. split; reflexivity.
Qed.

Lemma match_here_brace (s : pystr) :
  match_here brace_pattern s =
  match s with
  | x :: s' =>
      if N.eqb x Ch.lbrace then
        match match_here to_close s' with
        | Some m => Some (x :: m)
        | None => None
        end
      else None
  | [] => None
  end.
Proof. destruct s; reflexivity. Qed.

(** A match of the pattern is a brace-delimited part of the text. *)
Lemma re_search_brace_Some (s g : pystr) :
  re_search brace_pattern s = Some g -> has_braces s.
Proof.
  induction s as [|x s IH].
  - simpl. discriminate.
  - cbn [re_search]. rewrite match_here_brace.
    destruct (N.eqb_spec x Ch.lbrace) as [->|].
    + destruct (match_here to_close s) as [m|] eqn:E.
      * intros _. apply to_close_Some in E. destruct E as (b & c & -> & _).
        exists [], b, c. reflexivity.
      * intros H. destruct (IH H) as (a & b & c & ->).
        exists (Ch.lbrace :: a), b, c. reflexivity.
    + intros H. destruct (IH H) as (a & b & c & ->).
      exists (x :: a), b, c. reflexivity.
Qed.

Lemma to_close_complete (b c : pystr) :
  exists m, match_here to_close (b ++ Ch.rbrace :: c) = Some m.
Proof.
  unfold to_close. induction b as [|x b (m & IH)]; simpl app.
  - rewrite match_here_star_cons.
    destruct (match_here [DotStar; Lit Ch.rbrace] c) as [m|]; [eauto|].
    rewrite match_here_lit, N.eqb_refl. eauto.
  - rewrite match_here_star_cons, IH. eauto.
Qed.

(** The pattern matches wherever the text has a brace-delimited part. *)
Lemma re_search_brace_complete (s : pystr) :
  has_braces s -> exists g, re_search brace_pattern s = Some g.
Proof.
  intros (a & b & c & ->). induction a as [|x a (g & IH)]; simpl app.
  - cbn [re_search]. rewrite match_here_brace, N.eqb_refl.
    destruct (to_close_complete b c) as (m & ->). eauto.
  - cbn [re_search].
    destruct (match_here brace_pattern _) as [m|]; [eauto|].
    rewrite IH. eauto.
Qed.

Lemma re_search_brace_None (s : pystr) :
  ~ has_braces s -> re_search brace_pattern s = None.
Proof.
  intros H. destruct (re_search brace_pattern s) as [g|] eqn:E; [|reflexivity].
  exfalso. exact (H (re_search_brace_Some _ _ E)).
Qed.

(** The match runs from the first opening brace to the last closing one. *)
Lemma re_search_brace_first_last (pre mid post : pystr) :
  ~ In Ch.lbrace pre -> ~ In Ch.rbrace post ->
  re_search brace_pattern (pre ++ Ch.lbrace :: mid ++ Ch.rbrace :: post)
  = Some (Ch.lbrace :: mid ++ [Ch.rbrace]).
Proof.
  intros Hpre Hpost. induction pre as [|x pre IH]; simpl app.
  - cbn [re_search]. rewrite match_here_brace, N.eqb_refl.
    rewrite (to_close_last _ _ Hpost). reflexivity.
  - cbn [re_search]. rewrite match_here_brace.
    destruct (N.eqb_spec x Ch.lbrace) as [->|].
    + exfalso. apply Hpre. left. reflexivity.
    + apply IH. intros H. apply Hpre. right. exact H.
Qed.

(** Runs an operation up to its call of the remote model. *)
Ltac to_remote Hcred :=
  let key := fresh "key" in
  let model := fresh "model" in
  let Hm := fresh "Hmodel" in
  destruct (get_gemini_model_ok _ Hcred) as (key & model & Hm);
  rewrite (bind_Return _ _ _ _ _ (Hm _)).

Ltac decode Hdec :=
  let imgs := fresh "imgs" in
  let Hi := fresh "Himgs" in
  destruct (mapM_base64_to_pil_ok _ _ Hdec) as (imgs & Hi);
  rewrite (bind_Return _ _ _ _ _ (Hi _)).

Section Properties.

Variable W : World.
Variable Client : Type.
Variable client : Client.
Variables prompt instructions detail : pystr.

(** C5. With the credential variable unset, each of the three operations
    raises the configuration error ([ValueError]) and leaves the trace of
    effects as it found it: nothing is configured, no request is sent. *)
Theorem missing_credential_raises_first
    (profiles chapters pages : list pystr) (t : list event) :
  os_getenv W (str "GOOGLE_API_KEY") = None ->
  analyze_images_with_gpt4_vision W profiles pages client
    prompt instructions detail t
    = (Raise missing_credential_error, t) /\
  detect_important_pages W profiles chapters pages client
    prompt instructions detail t
    = (Raise missing_credential_error, t) /\
  get_important_panels W profiles pages client prompt instructions detail t
    = (Raise missing_credential_error, t).
Proof.
  intros H. pose proof (get_gemini_model_missing W t H) as Hm.
  repeat split.
  - unfold analyze_images_with_gpt4_vision. apply bind_Raise, Hm.
  - unfold detect_important_pages. apply bind_Raise, Hm.
  - unfold get_important_panels. apply bind_Raise, Hm.
Qed.

(** C4. Whatever text [T] the model returns, the result of
    [analyze_images_with_gpt4_vision] has exactly one choice, whose
    [message.content] is [T], and [usage.total_tokens] is 0. *)
Theorem legacy_shape_fidelity
    (profiles pages : list pystr) (T : pystr) (t : list event) :
  credential_set W ->
  Forall (decodable W) profiles ->
  Forall (decodable W) pages ->
  remote_replies W (Return {| text := Return T |}) ->
  exists r,
    fst (analyze_images_with_gpt4_vision W profiles pages client
           prompt instructions detail t) = Return r /\
    List.length (choices r) = 1 /\
    List.map (fun c => content (message c)) (choices r) = [T] /\
    total_tokens (usage r) = 0%Z.
Proof.
  intros Hcred Hp Hg Hr. exists (new_MockResponse T 0).
  split; [|repeat split].
  unfold analyze_images_with_gpt4_vision.
  to_remote Hcred. decode Hp. decode Hg.
  rewrite (bind_Return _ _ _ _ _ (generate_content_replies _ _ _ _ _ _ Hr)).
  reflexivity.
Qed.

(** What the two JSON-mode operations return once the model has answered
    with the text [T]: the outcome of the parsing stage alone. *)
Lemma detect_important_pages_says
    (profiles chapters pages : list pystr) (T : pystr) (t : list event) :
  credential_set W ->
  Forall (decodable W) profiles ->
  Forall (decodable W) chapters ->
  Forall (decodable W) pages ->
  remote_replies W (Return {| text := Return T |}) ->
  fst (detect_important_pages W profiles chapters pages client
         prompt instructions detail t) =
  match json_loads (interpreter W) T with
  | Return v =>
      match py_get v (str "important_pages") (PyList []) with
      | Return x => Return (structured_result x)
      | Raise e => Raise e
      end
  | Raise caught =>
      if issubclass_JSONDecodeError (exn_class caught) then
        match re_search brace_pattern T with
        | Some group =>
            match json_loads (interpreter W) group with
            | Return v =>
                match py_get v (str "important_pages") (PyList []) with
                | Return x => Return (structured_result x)
                | Raise e => Raise e
                end
            | Raise e => Raise e
            end
        | None => after_print W parse_diagnostic (Raise caught)
        end
      else Raise caught
  end.
Proof.
  intros Hcred Hp Hc Hg Hr.
  unfold detect_important_pages.
  to_remote Hcred. decode Hp. decode Hc. decode Hg.
  rewrite (bind_Return _ _ _ _ _ (generate_content_replies _ _ _ _ _ _ Hr)).
  unfold bind, try_except, lift, print, emit, raise, ret, after_print.
  cbn [text].
  destruct (json_loads (interpreter W) T) as [v|caught].
  - destruct (py_get v _ _); reflexivity.
  - destruct (issubclass_JSONDecodeError (exn_class caught)); [|reflexivity].
    destruct (re_search brace_pattern T) as [group|].
    + destruct (json_loads (interpreter W) group) as [v|e]; [|reflexivity].
      destruct (py_get v _ _); reflexivity.
    + unfold bind. cbn [fst snd].
      fold parse_diagnostic.
      destruct (stdout_write W parse_diagnostic) as [[]|e]; reflexivity.
Qed.

Lemma get_important_panels_says
    (profiles panels : list pystr) (T : pystr) (t : list event) :
  credential_set W ->
  Forall (decodable W) profiles ->
  Forall (decodable W) panels ->
  remote_replies W (Return {| text := Return T |}) ->
  fst (get_important_panels W profiles panels client
         prompt instructions detail t) =
  match json_loads (interpreter W) T with
  | Return v =>
      match py_get v (str "important_panels") (PyList []) with
      | Return x => Return (structured_result x)
      | Raise e => Raise e
      end
  | Raise caught =>
      if issubclass_JSONDecodeError (exn_class caught) then
        match re_search brace_pattern T with
        | Some group =>
            match json_loads (interpreter W) group with
            | Return v =>
                match py_get v (str "important_panels") (PyList []) with
                | Return x => Return (structured_result x)
                | Raise e => Raise e
                end
            | Raise e => Raise e
            end
        | None => Return (structured_result (PyList []))
        end
      else Raise caught
  end.
Proof.
  intros Hcred Hp Hg Hr.
  unfold get_important_panels.
  to_remote Hcred. decode Hp. decode Hg.
  unfold bind at 1. unfold try_except at 1.
  rewrite (bind_Return _ _ _ _ _ (generate_content_replies _ _ _ _ _ _ Hr)).
  unfold bind, try_except, lift, raise, ret. cbn [text].
  destruct (json_loads (interpreter W) T) as [v|caught].
  - destruct (py_get v _ _); reflexivity.
  - destruct (issubclass_JSONDecodeError (exn_class caught)); [|reflexivity].
    destruct (re_search brace_pattern T) as [group|]; [|reflexivity].
    destruct (json_loads (interpreter W) group) as [v|e]; [|reflexivity].
    destruct (py_get v _ _); reflexivity.
Qed.

(** What [get_important_panels] returns when the request, or the read of
    [response.text], raises [e]. *)
Lemma get_important_panels_handler
    (profiles panels : list pystr) (reply : outcome response) (e : exn)
    (t : list event) :
  credential_set W ->
  Forall (decodable W) profiles ->
  Forall (decodable W) panels ->
  remote_replies W reply ->
  reply = Raise e \/ reply = Return {| text := Raise e |} ->
  fst (get_important_panels W profiles panels client
         prompt instructions detail t) =
  if issubclass_Exception (exn_class e)
  then after_print W (panel_diagnostic W e)
         (Return (structured_result (PyList [])))
  else Raise e.
Proof.
  intros Hcred Hp Hg Hr He.
  unfold get_important_panels.
  to_remote Hcred. decode Hp. decode Hg.
  unfold bind at 1. unfold try_except at 1. unfold bind at 1.
  rewrite (generate_content_replies _ _ _ _ _ _ Hr).
  destruct He as [->| ->]; unfold bind at 1; unfold lift at 1; cbn [text];
    (destruct (issubclass_Exception (exn_class e)); [|reflexivity]);
    unfold bind, print, emit, lift, ret, after_print;
    fold (panel_diagnostic W e);
    destruct (stdout_write W (panel_diagnostic W e)) as [[]|e'];
    reflexivity.
Qed.

(** C1, as amended.  When the remote invocation raises [e],
    [analyze_images_with_gpt4_vision] and [detect_important_pages] raise
    the same [e].  [get_important_panels] raises [e] when [e] is not an
    instance of [Exception] ([KeyboardInterrupt], [SystemExit],
    [GeneratorExit], [asyncio.CancelledError], ...); when it is one, the
    operation prints its diagnostic line and returns
    [{"total_tokens": 0, "parsed_response": []}], unless that print raises:
    then the exception of the print leaves the operation. *)
Theorem remote_exception_policy
    (profiles chapters pages : list pystr) (e : exn) (t : list event) :
  credential_set W ->
  Forall (decodable W) profiles ->
  Forall (decodable W) chapters ->
  Forall (decodable W) pages ->
  remote_replies W (Raise e) ->
  fst (analyze_images_with_gpt4_vision W profiles pages client
         prompt instructions detail t) = Raise e /\
  fst (detect_important_pages W profiles chapters pages client
         prompt instructions detail t) = Raise e /\
  fst (get_important_panels W profiles pages client
         prompt instructions detail t) =
    if issubclass_Exception (exn_class e)
    then after_print W (panel_diagnostic W e)
           (Return (structured_result (PyList [])))
    else Raise e.
Proof.
  intros Hcred Hp Hc Hg Hr. repeat split.
  - unfold analyze_images_with_gpt4_vision.
    to_remote Hcred. decode Hp. decode Hg.
    rewrite (bind_Raise _ _ _ _ _ (generate_content_replies _ _ _ _ _ _ Hr)).
    reflexivity.
  - unfold detect_important_pages.
    to_remote Hcred. decode Hp. decode Hc. decode Hg.
    rewrite (bind_Raise _ _ _ _ _ (generate_content_replies _ _ _ _ _ _ Hr)).
    reflexivity.
  - apply (get_important_panels_handler profiles pages (Raise e) e t
             Hcred Hp Hg Hr). left. reflexivity.
Qed.

(** C2, as amended.  Let the response text have no brace-delimited part and
    let [json.loads] raise [caught] on it.  When [caught] is a
    [JSONDecodeError], [detect_important_pages] prints its diagnostic line
    and raises [caught] (the exception of the print, if the print raises),
    and [get_important_panels] returns
    [{"total_tokens": 0, "parsed_response": []}].  When [caught] is the
    [RecursionError] or the [ValueError] of a limit of the interpreter, both
    operations raise [caught]. *)
Theorem unrecoverable_text_policy
    (profiles chapters pages : list pystr) (T : pystr) (caught : exn)
    (t : list event) :
  credential_set W ->
  Forall (decodable W) profiles ->
  Forall (decodable W) chapters ->
  Forall (decodable W) pages ->
  remote_replies W (Return {| text := Return T |}) ->
  json_loads (interpreter W) T = Raise caught ->
  ~ has_braces T ->
  fst (detect_important_pages W profiles chapters pages client
         prompt instructions detail t)
    = (if issubclass_JSONDecodeError (exn_class caught)
       then after_print W parse_diagnostic (Raise caught)
       else Raise caught) /\
  fst (get_important_panels W profiles pages client
         prompt instructions detail t)
    = (if issubclass_JSONDecodeError (exn_class caught)
       then Return (structured_result (PyList []))
       else Raise caught) /\
  (caught = mkExn JSONDecodeError T \/ caught = mkExn RecursionError T \/
   caught = mkExn ValueError T).
Proof.
  intros Hcred Hp Hc Hg Hr Hbad Hnb. split; [|split].
  - rewrite (detect_important_pages_says _ _ _ _ _ Hcred Hp Hc Hg Hr).
    rewrite Hbad, (re_search_brace_None _ Hnb). reflexivity.
  - rewrite (get_important_panels_says _ _ _ _ Hcred Hp Hg Hr).
    rewrite Hbad, (re_search_brace_None _ Hnb). reflexivity.
  - exact (json_loads_raises _ _ _ Hbad).
Qed.

(** C3, what the code does where the specification says otherwise.  When
    [json.loads] raises [caught] on the response text, the brace pattern
    matches, and [json.loads] raises [e] on the matched text,
    [get_important_panels] raises: [e] when [caught] is a
    [JSONDecodeError], the second [json.loads] being outside every [try],
    and [caught] itself when it is not one. *)
Theorem panels_reparse_error_propagates
    (profiles panels : list pystr) (T group : pystr) (caught e : exn)
    (t : list event) :
  credential_set W ->
  Forall (decodable W) profiles ->
  Forall (decodable W) panels ->
  remote_replies W (Return {| text := Return T |}) ->
  json_loads (interpreter W) T = Raise caught ->
  re_search brace_pattern T = Some group ->
  json_loads (interpreter W) group = Raise e ->
  fst (get_important_panels W profiles panels client
         prompt instructions detail t)
    = Raise (if issubclass_JSONDecodeError (exn_class caught)
             then e else caught).
Proof.
  intros Hcred Hp Hg Hr Hbad Hm Hbad'.
  rewrite (get_important_panels_says _ _ _ _ Hcred Hp Hg Hr).
  rewrite Hbad, Hm, Hbad'.
  destruct (issubclass_JSONDecodeError (exn_class caught)); reflexivity.
Qed.

(** C6. When the model returns [{"important_pages": ["p1","p2"]}],
    [detect_important_pages] returns the mapping with the two keys
    [total_tokens] and [parsed_response], of values 0 and
    [["p1","p2"]]. *)
Theorem well_formed_round_trip
    (profiles chapters pages : list pystr) (t : list event) :
  credential_set W ->
  Forall (decodable W) profiles ->
  Forall (decodable W) chapters ->
  Forall (decodable W) pages ->
  remote_replies W
    (Return {| text := Return (js "{'important_pages': ['p1','p2']}") |}) ->
  exists d,
    fst (detect_important_pages W profiles chapters pages client
           prompt instructions detail t) = Return d /\
    d = [ (str "total_tokens", PyInt 0);
          (str "parsed_response",
           PyList [PyStr (str "p1"); PyStr (str "p2")]) ] /\
    dict_keys d = [str "total_tokens"; str "parsed_response"].
Proof.
  intros Hcred Hp Hc Hg Hr. eexists. split; [|split; reflexivity].
  rewrite (detect_important_pages_says _ _ _ _ _ Hcred Hp Hc Hg Hr).
  vm_compute. reflexivity.
Qed.

(** C7. When the model returns [{}], both JSON-mode operations return
    [parsed_response = []]. *)
Theorem missing_key_default
    (profiles chapters pages : list pystr) (t : list event) :
  credential_set W ->
  Forall (decodable W) profiles ->
  Forall (decodable W) chapters ->
  Forall (decodable W) pages ->
  remote_replies W (Return {| text := Return (js "{}") |}) ->
  (exists d,
     fst (detect_important_pages W profiles chapters pages client
            prompt instructions detail t) = Return d /\
     dict_get d (str "parsed_response") = Some (PyList [])) /\
  (exists d,
     fst (get_important_panels W profiles pages client
            prompt instructions detail t) = Return d /\
     dict_get d (str "parsed_response") = Some (PyList [])).
Proof.
  intros Hcred Hp Hc Hg Hr. split.
  - exists (structured_result (PyList [])). split; [|reflexivity].
    rewrite (detect_important_pages_says _ _ _ _ _ Hcred Hp Hc Hg Hr).
    vm_compute. reflexivity.
  - exists (structured_result (PyList [])). split; [|reflexivity].
    rewrite (get_important_panels_says _ _ _ _ Hcred Hp Hg Hr).
    vm_compute. reflexivity.
Qed.

(** C8. When the model returns
    [noise {"important_panels": ["a"]} trailing], [get_important_panels]
    parses the embedded object and returns [parsed_response = ["a"]]. *)
Theorem recoverable_text_is_parsed
    (profiles panels : list pystr) (t : list event) :
  credential_set W ->
  Forall (decodable W) profiles ->
  Forall (decodable W) panels ->
  remote_replies W
    (Return {| text :=
                 Return (js "noise {'important_panels': ['a']} trailing") |}) ->
  re_search brace_pattern (js "noise {'important_panels': ['a']} trailing")
    = Some (js "{'important_panels': ['a']}") /\
  exists d,
    fst (get_important_panels W profiles panels client
           prompt instructions detail t) = Return d /\
    dict_get d (str "parsed_response") = Some (PyList [PyStr (str "a")]).
Proof.
  intros Hcred Hp Hg Hr. split; [vm_compute; reflexivity|].
  exists (structured_result (PyList [PyStr (str "a")])).
  split; [|reflexivity].
  rewrite (get_important_panels_says _ _ _ _ Hcred Hp Hg Hr).
  vm_compute. reflexivity.
Qed.

(** C9, as amended.  When the strict parse of the response text raises
    [JSONDecodeError], [detect_important_pages] parses the part of the text
    from its first opening brace to its last closing brace; when
    [json.loads] returns a value for that part, the value is a [dict], and
    the operation returns its [important_pages] entry (or [[]]). *)
Theorem fallback_parses_first_to_last_brace
    (profiles chapters pages : list pystr) (pre mid post : pystr)
    (v : pyvalue) (t : list event) :
  credential_set W ->
  Forall (decodable W) profiles ->
  Forall (decodable W) chapters ->
  Forall (decodable W) pages ->
  ~ In Ch.lbrace pre ->
  ~ In Ch.rbrace post ->
  remote_replies W
    (Return {| text :=
                 Return (pre ++ Ch.lbrace :: mid ++ Ch.rbrace :: post) |}) ->
  json_loads (interpreter W) (pre ++ Ch.lbrace :: mid ++ Ch.rbrace :: post)
    = Raise (mkExn JSONDecodeError
               (pre ++ Ch.lbrace :: mid ++ Ch.rbrace :: post)) ->
  json_loads (interpreter W) (Ch.lbrace :: mid ++ [Ch.rbrace]) = Return v ->
  re_search brace_pattern (pre ++ Ch.lbrace :: mid ++ Ch.rbrace :: post)
    = Some (Ch.lbrace :: mid ++ [Ch.rbrace]) /\
  exists d,
    v = PyDict d /\
    fst (detect_important_pages W profiles chapters pages client
           prompt instructions detail t)
      = Return (structured_result
                  match dict_get d (str "important_pages") with
                  | Some x => x
                  | None => PyList []
                  end).
Proof.
  intros Hcred Hp Hc Hg Hpre Hpost Hr Hbad Hv.
  pose proof (re_search_brace_first_last pre mid post Hpre Hpost) as Hm.
  split; [exact Hm|].
  destruct (json_loads_object _ _ _ Hv) as (d & ->). exists d.
  split; [reflexivity|].
  rewrite (detect_important_pages_says _ _ _ _ _ Hcred Hp Hc Hg Hr).
  rewrite Hbad, Hm, Hv. reflexivity.
Qed.

(** C10. When [json.loads] returns a value for the response text and the
    value is not an object, both JSON-mode operations raise the
    [AttributeError] of the missing [get] method: neither returns a result,
    neither takes the fallback of the malformed-output path. *)
Theorem non_object_json_raises_at_get
    (profiles chapters pages : list pystr) (T : pystr) (v : pyvalue)
    (t : list event) :
  credential_set W ->
  Forall (decodable W) profiles ->
  Forall (decodable W) chapters ->
  Forall (decodable W) pages ->
  remote_replies W (Return {| text := Return T |}) ->
  json_loads (interpreter W) T = Return v ->
  is_dict v = false ->
  fst (detect_important_pages W profiles chapters pages client
         prompt instructions detail t) = Raise (no_get_error v) /\
  fst (get_important_panels W profiles pages client
         prompt instructions detail t) = Raise (no_get_error v) /\
  exn_class (no_get_error v) = AttributeError.
Proof.
  intros Hcred Hp Hc Hg Hr Hv Hnd. repeat split.
  - rewrite (detect_important_pages_says _ _ _ _ _ Hcred Hp Hc Hg Hr).
    rewrite Hv, (py_get_not_dict _ _ _ Hnd). reflexivity.
  - rewrite (get_important_panels_says _ _ _ _ Hcred Hp Hg Hr).
    rewrite Hv, (py_get_not_dict _ _ _ Hnd). reflexivity.
Qed.

End Properties.

(** * The properties at concrete inputs *)

Lemma world_with_credential (reply : outcome response) :
  credential_set (world_with reply).
Proof. exists (str "secret"). split; [reflexivity|discriminate]. Qed.

Lemma world_with_decodable (reply : outcome response) (l : list pystr) :
  Forall (decodable (world_with reply)) l.
Proof.
  apply Forall_forall. intros s _. exists s, (PILImage s). split; reflexivity.
Qed.

Lemma world_with_replies (reply : outcome response) :
  remote_replies (world_with reply) reply.
Proof. intros model contents config. reflexivity. Qed.

(** Closes, at [world_with reply], a property's assumptions about
    the world. *)
Ltac in_world :=
  first [ apply world_with_credential
        | apply world_with_decodable
        | apply world_with_replies ].

Lemma missing_credential_raises_first_witness :
  os_getenv (world_without_key (says (js "{}"))) (str "GOOGLE_API_KEY") = None /\
  analyze_images_with_gpt4_vision (world_without_key (says (js "{}")))
    sample_images sample_images tt (str "p") (str "i") (str "low") []
  = (Raise missing_credential_error, []) /\
  detect_important_pages (world_without_key (says (js "{}")))
    sample_images sample_images sample_images tt (str "p") (str "i") (str "low") []
  = (Raise missing_credential_error, []) /\
  get_important_panels (world_without_key (says (js "{}")))
    sample_images sample_images tt (str "p") (str "i") (str "low") []
  = (Raise missing_credential_error, []).
Proof.
  split; [reflexivity|].
  apply (missing_credential_raises_first (world_without_key (says (js "{}")))
           unit tt (str "p") (str "i") (str "low")
           sample_images sample_images sample_images []).
  reflexivity.
Defined.

Lemma legacy_shape_fidelity_witness :
  exists r,
    fst (analyze_images_with_gpt4_vision (world_with (says (str "A quiet street.")))
           sample_images sample_images tt (str "p") (str "i") (str "low") [])
      = Return r /\
    List.length (choices r) = 1 /\
    List.map (fun c => content (message c)) (choices r)
      = [str "A quiet street."] /\
    total_tokens (usage r) = 0%Z.
Proof.
  apply (legacy_shape_fidelity (world_with (says (str "A quiet street.")))
           unit tt (str "p") (str "i") (str "low")
           sample_images sample_images (str "A quiet street.") []);
    in_world.
Defined.

Lemma remote_exception_policy_witness :
  fst (analyze_images_with_gpt4_vision (world_with (Raise connection_error))
         sample_images sample_images tt (str "p") (str "i") (str "low") [])
    = Raise connection_error /\
  fst (detect_important_pages (world_with (Raise connection_error))
         sample_images sample_images sample_images tt
         (str "p") (str "i") (str "low") [])
    = Raise connection_error /\
  fst (get_important_panels (world_with (Raise connection_error))
         sample_images sample_images tt (str "p") (str "i") (str "low") [])
    = Return (structured_result (PyList [])).
Proof.
  apply (remote_exception_policy (world_with (Raise connection_error))
           unit tt (str "p") (str "i") (str "low")
           sample_images sample_images sample_images connection_error []);
    in_world.
Defined.

(** C1 as stated fails: a [KeyboardInterrupt] raised by the remote
    invocation is not caught by [except Exception]; it leaves
    [get_important_panels]. *)
Lemma keyboard_interrupt_leaves_panels :
  remote_replies (world_with (Raise keyboard_interrupt))
    (Raise keyboard_interrupt) /\
  fst (get_important_panels (world_with (Raise keyboard_interrupt))
         sample_images sample_images tt (str "p") (str "i") (str "low") [])
    = Raise keyboard_interrupt /\
  fst (get_important_panels (world_with (Raise keyboard_interrupt))
         sample_images sample_images tt (str "p") (str "i") (str "low") [])
    <> Return (structured_result (PyList [])).
Proof.
  split; [apply world_with_replies|].
  assert (E : fst (get_important_panels (world_with (Raise keyboard_interrupt))
                     sample_images sample_images tt
                     (str "p") (str "i") (str "low") [])
              = Raise keyboard_interrupt) by (vm_compute; reflexivity).
  split; [exact E|]. rewrite E. discriminate.
Qed.

Lemma unrecoverable_text_policy_witness :
  fst (detect_important_pages (world_with (says (str "I cannot help with that.")))
         sample_images sample_images sample_images tt
         (str "p") (str "i") (str "low") [])
    = Raise (mkExn JSONDecodeError (str "I cannot help with that.")) /\
  fst (get_important_panels (world_with (says (str "I cannot help with that.")))
         sample_images sample_images tt (str "p") (str "i") (str "low") [])
    = Return (structured_result (PyList [])).
Proof.
  pose proof (unrecoverable_text_policy
           (world_with (says (str "I cannot help with that.")))
           unit tt (str "p") (str "i") (str "low")
           sample_images sample_images sample_images
           (str "I cannot help with that.")
           (mkExn JSONDecodeError (str "I cannot help with that.")) []
           (world_with_credential _) (world_with_decodable _ _)
           (world_with_decodable _ _) (world_with_decodable _ _)
           (world_with_replies _)) as H.
  destruct H as (A & B & _).
  - vm_compute. reflexivity.
  - intros H. destruct (re_search_brace_complete _ H) as (g & Hg).
    vm_compute in Hg. discriminate Hg.
  - split; [exact A|exact B].
Defined.

(** C2 as stated fails: [deep_brackets_text] is not valid JSON (the grammar
    alone rejects it) and has no brace-delimited part, but [json.loads]
    stops at the recursion limit before it finds the error, and both
    operations raise [RecursionError]. *)
Lemma deep_nesting_raises_recursion_error :
  json_loads (unlimited_for deep_brackets_text) deep_brackets_text
    = Raise (mkExn JSONDecodeError deep_brackets_text) /\
  re_search brace_pattern deep_brackets_text = None /\
  fst (detect_important_pages (world_with (says deep_brackets_text))
         sample_images sample_images sample_images tt
         (str "p") (str "i") (str "low") [])
    = Raise (mkExn RecursionError deep_brackets_text) /\
  fst (get_important_panels (world_with (says deep_brackets_text))
         sample_images sample_images tt (str "p") (str "i") (str "low") [])
    = Raise (mkExn RecursionError deep_brackets_text) /\
  fst (get_important_panels (world_with (says deep_brackets_text))
         sample_images sample_images tt (str "p") (str "i") (str "low") [])
    <> Return (structured_result (PyList [])).
Proof.
  assert (E : fst (get_important_panels
                     (world_with (says deep_brackets_text))
                     sample_images sample_images tt
                     (str "p") (str "i") (str "low") [])
              = Raise (mkExn RecursionError deep_brackets_text))
    by (vm_compute; reflexivity).
  repeat split; try (vm_compute; reflexivity).
  rewrite E. discriminate.
Qed.

Lemma panels_reparse_error_propagates_witness :
  re_search brace_pattern truncated_text
    = Some (js "{'important_panels': [{'id': 1}") /\
  fst (get_important_panels (world_with (says truncated_text))
         sample_images sample_images tt (str "p") (str "i") (str "low") [])
    = Raise (mkExn JSONDecodeError (js "{'important_panels': [{'id': 1}")).
Proof.
  split; [vm_compute; reflexivity|].
  apply (panels_reparse_error_propagates (world_with (says truncated_text))
           unit tt (str "p") (str "i") (str "low")
           sample_images sample_images truncated_text
           (js "{'important_panels': [{'id': 1}")
           (mkExn JSONDecodeError truncated_text)
           (mkExn JSONDecodeError (js "{'important_panels': [{'id': 1}")) []);
    try in_world.
  - vm_compute. reflexivity.
  - vm_compute. reflexivity.
  - vm_compute. reflexivity.
Defined.

Lemma well_formed_round_trip_witness :
  exists d,
    fst (detect_important_pages
           (world_with (says (js "{'important_pages': ['p1','p2']}")))
           sample_images sample_images sample_images tt
           (str "p") (str "i") (str "low") []) = Return d /\
    d = [ (str "total_tokens", PyInt 0);
          (str "parsed_response",
           PyList [PyStr (str "p1"); PyStr (str "p2")]) ] /\
    dict_keys d = [str "total_tokens"; str "parsed_response"].
Proof.
  apply (well_formed_round_trip
           (world_with (says (js "{'important_pages': ['p1','p2']}")))
           unit tt (str "p") (str "i") (str "low")
           sample_images sample_images sample_images []);
    in_world.
Defined.

Lemma missing_key_default_witness :
  (exists d,
     fst (detect_important_pages (world_with (says (js "{}")))
            sample_images sample_images sample_images tt
            (str "p") (str "i") (str "low") []) = Return d /\
     dict_get d (str "parsed_response") = Some (PyList [])) /\
  (exists d,
     fst (get_important_panels (world_with (says (js "{}")))
            sample_images sample_images tt
            (str "p") (str "i") (str "low") []) = Return d /\
     dict_get d (str "parsed_response") = Some (PyList [])).
Proof.
  apply (missing_key_default (world_with (says (js "{}")))
           unit tt (str "p") (str "i") (str "low")
           sample_images sample_images sample_images []);
    in_world.
Defined.

Lemma recoverable_text_is_parsed_witness :
  exists d,
    fst (get_important_panels
           (world_with (says (js "noise {'important_panels': ['a']} trailing")))
           sample_images sample_images tt
           (str "p") (str "i") (str "low") []) = Return d /\
    dict_get d (str "parsed_response") = Some (PyList [PyStr (str "a")]).
Proof.
  apply (recoverable_text_is_parsed
           (world_with (says (js "noise {'important_panels': ['a']} trailing")))
           unit tt (str "p") (str "i") (str "low")
           sample_images sample_images []);
    in_world.
Defined.

Lemma fallback_parses_first_to_last_brace_witness :
  exists d,
    PyDict [ (str "important_pages", PyList [PyStr (str "a")]) ] = PyDict d /\
    fst (detect_important_pages
           (world_with (says (js "noise {'important_pages': ['a']} trailing")))
           sample_images sample_images sample_images tt
           (str "p") (str "i") (str "low") [])
      = Return (structured_result
                  match dict_get d (str "important_pages") with
                  | Some x => x
                  | None => PyList []
                  end).
Proof.
  apply (fallback_parses_first_to_last_brace
           (world_with (says (js "noise {'important_pages': ['a']} trailing")))
           unit tt (str "p") (str "i") (str "low")
           sample_images sample_images sample_images
           (str "noise ") (js "'important_pages': ['a']") (str " trailing")
           (PyDict [ (str "important_pages", PyList [PyStr (str "a")]) ]) []);
    try in_world.
  - vm_compute. intuition discriminate.
  - vm_compute. intuition discriminate.
  - vm_compute. reflexivity.
  - vm_compute. reflexivity.
Defined.

(** C9 as stated fails: in [two_objects_text] the first opening brace and
    the brace that closes it delimit [first_object_text], which is valid
    JSON, but the pattern matches up to the last closing brace, the second
    parse fails too, and [detect_important_pages] raises. *)
Lemma first_balanced_object_is_not_reparsed :
  json_loads sample_limits two_objects_text
    = Raise (mkExn JSONDecodeError two_objects_text) /\
  spec_first_brace_delimited two_objects_text = Some first_object_text /\
  json_loads sample_limits first_object_text
    = Return (PyDict [ (str "important_pages", PyList [PyStr (str "p1")]) ]) /\
  re_search brace_pattern two_objects_text = Some two_objects_text /\
  fst (detect_important_pages (world_with (says two_objects_text))
         sample_images sample_images sample_images tt
         (str "p") (str "i") (str "low") [])
    = Raise (mkExn JSONDecodeError two_objects_text) /\
  fst (detect_important_pages (world_with (says two_objects_text))
         sample_images sample_images sample_images tt
         (str "p") (str "i") (str "low") [])
    <> Return (structured_result (PyList [PyStr (str "p1")])).
Proof.
  assert (E : fst (detect_important_pages (world_with (says two_objects_text))
                     sample_images sample_images sample_images tt
                     (str "p") (str "i") (str "low") [])
              = Raise (mkExn JSONDecodeError two_objects_text))
    by (vm_compute; reflexivity).
  repeat split; try (vm_compute; reflexivity).
  rewrite E. discriminate.
Qed.

Lemma non_object_json_raises_at_get_witness :
  json_loads sample_limits (js "['p1', 'p2']")
    = Return (PyList [PyStr (str "p1"); PyStr (str "p2")]) /\
  fst (detect_important_pages (world_with (says (js "['p1', 'p2']")))
         sample_images sample_images sample_images tt
         (str "p") (str "i") (str "low") [])
    = Raise (mkExn AttributeError (str "'list' object has no attribute 'get'")) /\
  fst (get_important_panels (world_with (says (js "['p1', 'p2']")))
         sample_images sample_images tt (str "p") (str "i") (str "low") [])
    = Raise (mkExn AttributeError (str "'list' object has no attribute 'get'")).
Proof.
  split; [vm_compute; reflexivity|].
  pose proof (non_object_json_raises_at_get
           (world_with (says (js "['p1', 'p2']")))
           unit tt (str "p") (str "i") (str "low")
           sample_images sample_images sample_images
           (js "['p1', 'p2']")
           (PyList [PyStr (str "p1"); PyStr (str "p2")]) []
           (world_with_credential _) (world_with_decodable _ _)
           (world_with_decodable _ _) (world_with_decodable _ _)
           (world_with_replies _) eq_refl eq_refl) as (A & B & _).
  split; [exact A|exact B].
Defined.

(** * Further properties of the module *)

(** ** Running an operation, effects included *)

Lemma get_gemini_model_key (W : World) (key : pystr) (t : list event) :
  os_getenv W (str "GOOGLE_API_KEY") = Some key ->
  key <> [] ->
  get_gemini_model W t = (Return (chosen_model W), t ++ [EvConfigure key]).
Proof.
  intros Hk Hne. unfold get_gemini_model. rewrite Hk.
  destruct key as [|c key]; [congruence|]. reflexivity.
Qed.

Lemma base64_to_pil_decodes_to (W : World) (s : pystr) (img : image) t :
  decodes_to W s img -> base64_to_pil W s t = (Return img, t).
Proof.
  intros (data & Hd & Hi). unfold base64_to_pil, bind, lift.
  rewrite Hd, Hi. reflexivity.
Qed.

Lemma base64_to_pil_undecodable (W : World) (s : pystr) (e : exn) t :
  undecodable W s e -> base64_to_pil W s t = (Raise e, t).
Proof.
  unfold base64_to_pil, bind, lift. intros [Hd|(data & Hd & Hi)].
  - rewrite Hd. reflexivity.
  - rewrite Hd, Hi. reflexivity.
Qed.

Lemma mapM_decodes_to (W : World) (l : list pystr) (imgs : list image) :
  Forall2 (decodes_to W) l imgs ->
  forall t, mapM (base64_to_pil W) l t = (Return imgs, t).
Proof.
  induction 1 as [|s img l imgs Hs _ IH]; intros t.
  - reflexivity.
  - simpl. rewrite (bind_Return _ _ _ _ _ (base64_to_pil_decodes_to _ _ _ t Hs)).
    rewrite (bind_Return _ _ _ _ _ (IH t)). reflexivity.
Qed.

Lemma mapM_fails_first (W : World) (l : list pystr) (e : exn) :
  fails_first W l e ->
  forall t, mapM (base64_to_pil W) l t = (Raise e, t).
Proof.
  intros (l1 & s & l2 & -> & Hl1 & Hs) t.
  induction Hl1 as [|s1 l1 Hs1 _ IH]; simpl.
  - apply bind_Raise, base64_to_pil_undecodable, Hs.
  - destruct (base64_to_pil_ok _ _ Hs1) as (img & Hi).
    rewrite (bind_Return _ _ _ _ _ (Hi t)).
    apply bind_Raise, IH.
Qed.

(** A failure in two lists decoded one after the other is a failure in the
    first, or the first decodes and the failure is in the second. *)
Lemma fails_first_app (W : World) (a b : list pystr) (e : exn) :
  fails_first W (a ++ b) e ->
  fails_first W a e \/ (Forall (decodable W) a /\ fails_first W b e).
Proof.
  intros (l1 & s & l2 & Heq & Hl1 & Hs).
  revert l1 Heq Hl1. induction a as [|x a IH]; intros l1 Heq Hl1.
  - right. split; [constructor|]. exists l1, s, l2. auto.
  - destruct l1 as [|y l1]; simpl in Heq; injection Heq as -> Heq.
    + left. exists [], s, a. auto.
    + inversion Hl1 as [|? ? Hy Hl1']; subst.
      destruct (IH l1 Heq Hl1') as [(m1 & s' & m2 & -> & Hm1 & Hs')|[Ha Hb]].
      * left. exists (y :: m1), s', m2. repeat split; auto.
      * right. split; [constructor; assumption|exact Hb].
Qed.

Lemma generate_content_run (W : World) model contents config t :
  generate_content W model contents config t =
  (remote W model contents config,
   t ++ [EvGenerateContent model contents config]).
Proof.
  unfold generate_content, bind, emit, lift. simpl.
  destruct (remote W model contents config); reflexivity.
Qed.

(** ** Counting requests *)

Lemma remote_calls_app (a b : list event) :
  remote_calls (a ++ b) = remote_calls a + remote_calls b.
Proof. unfold remote_calls. rewrite List.filter_app, List.length_app. reflexivity. Qed.

Lemma sends_ret {A : Type} (n : nat) (a : A) : sends_at_most n (ret a).
Proof. intros t. exists []. simpl. rewrite app_nil_r. split; [reflexivity|apply Nat.le_0_l]. Qed.

Lemma sends_raise {A : Type} (n : nat) (e : exn) :
  sends_at_most n (@raise A e).
Proof. intros t. exists []. simpl. rewrite app_nil_r. split; [reflexivity|apply Nat.le_0_l]. Qed.

Lemma sends_lift {A : Type} (n : nat) (o : outcome A) :
  sends_at_most n (lift o).
Proof. intros t. exists []. simpl. rewrite app_nil_r. split; [reflexivity|apply Nat.le_0_l]. Qed.

Lemma sends_print (W : World) (n : nat) (line : pystr) :
  sends_at_most n (print W line).
Proof.
  intros t. exists [EvPrint line]. unfold print, bind, emit, lift.
  split; [destruct (stdout_write W line); reflexivity|]. cbv. lia.
Qed.

Lemma sends_bind {A B : Type} (n k N : nat) (m : M A) (f : A -> M B) :
  sends_at_most n m -> (forall a, sends_at_most k (f a)) -> n + k <= N ->
  sends_at_most N (bind m f).
Proof.
  intros Hm Hf HN t. destruct (Hm t) as (es & E & Les). unfold bind.
  destruct (m t) as [[a|e] t1]; simpl in E; subst t1.
  - destruct (Hf a (t ++ es)) as (es' & E' & Les'). exists (es ++ es').
    rewrite E', app_assoc, remote_calls_app. split; [reflexivity|lia].
  - exists es. split; [reflexivity|lia].
Qed.

Lemma sends_try {A : Type} (n : nat) (body : M A) (c : exc_class -> bool)
    (h : exn -> M A) :
  sends_at_most n body -> (forall e, sends_at_most 0 (h e)) ->
  sends_at_most n (try_except body c h).
Proof.
  intros Hb Hh t. destruct (Hb t) as (es & E & Les). unfold try_except.
  destruct (body t) as [[a|e] t1]; simpl in E; subst t1.
  - exists es. split; [reflexivity|lia].
  - destruct (c (exn_class e)).
    + destruct (Hh e (t ++ es)) as (es' & E' & Les'). exists (es ++ es').
      rewrite E', app_assoc, remote_calls_app. split; [reflexivity|lia].
    + exists es. split; [reflexivity|lia].
Qed.

Lemma sends_mapM {A B : Type} (f : A -> M B) (l : list A) :
  (forall a, sends_at_most 0 (f a)) -> sends_at_most 0 (mapM f l).
Proof.
  intros Hf. induction l as [|a l IH]; simpl.
  - apply sends_ret.
  - apply (sends_bind 0 0 0); [apply Hf| |lia]. intros b.
    apply (sends_bind 0 0 0); [apply IH| |lia]. intros bs. apply sends_ret.
Qed.

Lemma sends_get_gemini_model (W : World) :
  sends_at_most 0 (get_gemini_model W).
Proof.
  intros t. unfold get_gemini_model.
  destruct (os_getenv W (str "GOOGLE_API_KEY")) as [[|c key]|].
  - exists []. simpl. rewrite app_nil_r. split; [reflexivity|apply Nat.le_0_l].
  - eexists [EvConfigure _]. split; [reflexivity|]. cbv. lia.
  - exists []. simpl. rewrite app_nil_r. split; [reflexivity|apply Nat.le_0_l].
Qed.

Lemma sends_base64_to_pil (W : World) (s : pystr) :
  sends_at_most 0 (base64_to_pil W s).
Proof.
  unfold base64_to_pil. apply (sends_bind 0 0 0); [apply sends_lift| |lia].
  intros data. apply sends_lift.
Qed.

Lemma sends_generate_content (W : World) model contents config :
  sends_at_most 1 (generate_content W model contents config).
Proof.
  intros t. rewrite generate_content_run. eexists [_]. split; [reflexivity|].
  cbv. lia.
Qed.

(** ** What an operation can return *)

Lemma returns_ret {A : Type} (P : A -> Prop) (a : A) :
  P a -> returns_only P (ret a).
Proof. intros H t a' E. injection E as <-. exact H. Qed.

Lemma returns_bind {A B : Type} (P : B -> Prop) (m : M A) (f : A -> M B) :
  (forall a, returns_only P (f a)) -> returns_only P (bind m f).
Proof.
  intros Hf t b. unfold bind. destruct (m t) as [[a|e] t1].
  - apply Hf.
  - discriminate.
Qed.

Lemma returns_try {A : Type} (P : A -> Prop) (body : M A)
    (c : exc_class -> bool) (h : exn -> M A) :
  returns_only P body -> (forall e, returns_only P (h e)) ->
  returns_only P (try_except body c h).
Proof.
  intros Hb Hh t a. unfold try_except. pose proof (Hb t) as Hbt.
  destruct (body t) as [[a'|e] t1].
  - exact (Hbt a).
  - destruct (c (exn_class e)); [apply Hh|discriminate].
Qed.

(** A match of the brace pattern starts with the opening brace. *)
Lemma re_search_brace_starts (s g : pystr) :
  re_search brace_pattern s = Some g -> exists m, g = Ch.lbrace :: m.
Proof.
  induction s as [|x s IH].
  - simpl. discriminate.
  - cbn [re_search]. rewrite match_here_brace.
    destruct (N.eqb_spec x Ch.lbrace) as [->|]; [|exact IH].
    destruct (match_here to_close s) as [m|]; [|exact IH].
    intros H. injection H as <-. eauto.
Qed.

Section MoreProperties.

Variable W : World.
Variable Client : Type.
Variable client : Client.
Variables prompt instructions detail : pystr.

(** X1. A credential that is set but empty is refused like a missing one:
    each operation raises the configuration error and leaves the trace of
    effects as it found it. *)
Theorem empty_credential_raises_first
    (profiles chapters pages : list pystr) (t : list event) :
  os_getenv W (str "GOOGLE_API_KEY") = Some [] ->
  analyze_images_with_gpt4_vision W profiles pages client
    prompt instructions detail t
    = (Raise missing_credential_error, t) /\
  detect_important_pages W profiles chapters pages client
    prompt instructions detail t
    = (Raise missing_credential_error, t) /\
  get_important_panels W profiles pages client prompt instructions detail t
    = (Raise missing_credential_error, t).
Proof.
  intros H. pose proof (get_gemini_model_empty W t H) as Hm.
  repeat split.
  - unfold analyze_images_with_gpt4_vision. apply bind_Raise, Hm.
  - unfold detect_important_pages. apply bind_Raise, Hm.
  - unfold get_important_panels. apply bind_Raise, Hm.
Qed.

(** X2. With the credential set and every image decoding,
    [analyze_images_with_gpt4_vision] has exactly two effects, whatever the
    remote model does: it configures the client with the credential, then
    sends one request, with no generation config, to the model the
    environment selects; the request holds the instructions, the
    profile-page header, the profile images, the prompt and the page
    images, in that order. *)
Theorem analyze_images_request
    (profiles pages : list pystr) (key : pystr)
    (profile_imgs page_imgs : list image) (t : list event) :
  os_getenv W (str "GOOGLE_API_KEY") = Some key ->
  key <> [] ->
  Forall2 (decodes_to W) profiles profile_imgs ->
  Forall2 (decodes_to W) pages page_imgs ->
  snd (analyze_images_with_gpt4_vision W profiles pages client
         prompt instructions detail t)
  = t ++ [ EvConfigure key;
           EvGenerateContent (chosen_model W)
             ([ Text (str "System Instructions: " ++ instructions
                        ++ [Ch.lf; Ch.lf]);
                Text (str "Here are some character profile pages, for your reference:") ]
              ++ List.map Img profile_imgs
              ++ [ Text ([Ch.lf] ++ str "Prompt: " ++ prompt ++ [Ch.lf]) ]
              ++ List.map Img page_imgs)
             None ].
Proof.
  intros Hk Hne Hp Hg. unfold analyze_images_with_gpt4_vision.
  rewrite (bind_Return _ _ _ _ _ (get_gemini_model_key _ _ _ Hk Hne)).
  rewrite (bind_Return _ _ _ _ _ (mapM_decodes_to _ _ _ Hp _)).
  rewrite (bind_Return _ _ _ _ _ (mapM_decodes_to _ _ _ Hg _)).
  unfold bind at 1. rewrite generate_content_run.
  rewrite <- !app_assoc. simpl app.
  destruct (remote W _ _ _) as [resp|e]; [|reflexivity].
  unfold bind, lift, ret. destruct (text resp); reflexivity.
Qed.

(** X3. With the credential set and every image decoding,
    [detect_important_pages] first configures the client, then sends one
    request in JSON mode to the model the environment selects: the
    instructions, the profile-page header, the profile images, the
    chapter-start header, the chapter-start images, the prompt and the page
    images, in that order.  Whatever follows is not a request. *)
Theorem detect_important_pages_request
    (profiles chapters pages : list pystr) (key : pystr)
    (profile_imgs chapter_imgs page_imgs : list image) (t : list event) :
  os_getenv W (str "GOOGLE_API_KEY") = Some key ->
  key <> [] ->
  Forall2 (decodes_to W) profiles profile_imgs ->
  Forall2 (decodes_to W) chapters chapter_imgs ->
  Forall2 (decodes_to W) pages page_imgs ->
  exists rest,
    snd (detect_important_pages W profiles chapters pages client
           prompt instructions detail t)
    = t ++ EvConfigure key
        :: EvGenerateContent (chosen_model W)
             ([ Text (str "System Instructions: " ++ instructions
                        ++ [Ch.lf; Ch.lf]);
                Text (str "Here are some character profile pages, for your reference:") ]
              ++ List.map Img profile_imgs
              ++ [ Text ([Ch.lf] ++ str "Here are some chapter start pages, for your reference:") ]
              ++ List.map Img chapter_imgs
              ++ [ Text ([Ch.lf] ++ str "Prompt: " ++ prompt ++ [Ch.lf]) ]
              ++ List.map Img page_imgs)
             (Some json_mode)
        :: rest /\
    remote_calls rest = 0.
Proof.
  intros Hk Hne Hp Hc Hg. unfold detect_important_pages.
  rewrite (bind_Return _ _ _ _ _ (get_gemini_model_key _ _ _ Hk Hne)).
  rewrite (bind_Return _ _ _ _ _ (mapM_decodes_to _ _ _ Hp _)).
  rewrite (bind_Return _ _ _ _ _ (mapM_decodes_to _ _ _ Hc _)).
  rewrite (bind_Return _ _ _ _ _ (mapM_decodes_to _ _ _ Hg _)).
  unfold bind at 1. rewrite generate_content_run.
  rewrite <- !app_assoc. simpl app.
  destruct (remote W _ _ _) as [resp|e]; [|exists []; split; reflexivity].
  unfold bind, try_except, lift, print, emit, raise, ret.
  destruct (text resp) as [T|e]; [|exists []; split; reflexivity].
  destruct (json_loads (interpreter W) T) as [v|caught].
  - exists []. destruct (py_get v _ _); split; reflexivity.
  - destruct (issubclass_JSONDecodeError (exn_class caught));
      [|exists []; split; reflexivity].
    destruct (re_search brace_pattern T) as [group|].
    + exists [].
      destruct (json_loads (interpreter W) group) as [v|e];
        [|split; reflexivity].
      destruct (py_get v _ _); split; reflexivity.
    + exists [EvPrint (str "Failed to parse JSON from Gemini response.")].
      unfold bind. rewrite <- !app_assoc.
      destruct (stdout_write W _) as [[]|e]; split; reflexivity.
Qed.

(** X4. With the credential set and every image decoding,
    [get_important_panels] first configures the client, then sends one
    request in JSON mode to the model the environment selects: the
    instructions, the profile-page header, the profile images, the prompt
    and the panel images, in that order.  Whatever follows is not a
    request. *)
Theorem get_important_panels_request
    (profiles panels : list pystr) (key : pystr)
    (profile_imgs panel_imgs : list image) (t : list event) :
  os_getenv W (str "GOOGLE_API_KEY") = Some key ->
  key <> [] ->
  Forall2 (decodes_to W) profiles profile_imgs ->
  Forall2 (decodes_to W) panels panel_imgs ->
  exists rest,
    snd (get_important_panels W profiles panels client
           prompt instructions detail t)
    = t ++ EvConfigure key
        :: EvGenerateContent (chosen_model W)
             ([ Text (str "System Instructions: " ++ instructions
                        ++ [Ch.lf; Ch.lf]);
                Text (str "Here are some character profile pages, for your reference:") ]
              ++ List.map Img profile_imgs
              ++ [ Text ([Ch.lf] ++ str "Prompt: " ++ prompt ++ [Ch.lf]) ]
              ++ List.map Img panel_imgs)
             (Some json_mode)
        :: rest /\
    remote_calls rest = 0.
Proof.
  intros Hk Hne Hp Hg. unfold get_important_panels.
  rewrite (bind_Return _ _ _ _ _ (get_gemini_model_key _ _ _ Hk Hne)).
  rewrite (bind_Return _ _ _ _ _ (mapM_decodes_to _ _ _ Hp _)).
  rewrite (bind_Return _ _ _ _ _ (mapM_decodes_to _ _ _ Hg _)).
  unfold bind at 1. unfold try_except at 1. unfold bind at 1.
  rewrite generate_content_run.
  rewrite <- !app_assoc. simpl app.
  unfold bind, try_except, lift, print, emit, raise, ret.
  destruct (remote W _ _ _) as [resp|e].
  - destruct (text resp) as [T|e].
    + exists [].
      destruct (json_loads (interpreter W) T) as [v|caught].
      * destruct (py_get v _ _); split; reflexivity.
      * destruct (issubclass_JSONDecodeError (exn_class caught));
          [|split; reflexivity].
        destruct (re_search brace_pattern T) as [group|]; [|split; reflexivity].
        destruct (json_loads (interpreter W) group) as [v|e];
          [|split; reflexivity].
        destruct (py_get v _ _); split; reflexivity.
    + destruct (issubclass_Exception (exn_class e)).
      * eexists [EvPrint _]. unfold bind. rewrite <- !app_assoc.
        destruct (stdout_write W _) as [[]|e']; split; reflexivity.
      * exists []. split; reflexivity.
  - destruct (issubclass_Exception (exn_class e)).
    + eexists [EvPrint _]. unfold bind. rewrite <- !app_assoc.
      destruct (stdout_write W _) as [[]|e']; split; reflexivity.
    + exists []. split; reflexivity.
Qed.

(** X5. When an image of the profiles or, the profiles decoding, of the
    pages does not decode, [analyze_images_with_gpt4_vision] and
    [get_important_panels] raise the decoder's exception after configuring
    the client and before any request: [get_important_panels] does not turn
    this failure into an empty result. *)
Theorem undecodable_image_raises_before_request
    (profiles pages : list pystr) (key : pystr) (e : exn) (t : list event) :
  os_getenv W (str "GOOGLE_API_KEY") = Some key ->
  key <> [] ->
  fails_first W (profiles ++ pages) e ->
  analyze_images_with_gpt4_vision W profiles pages client
    prompt instructions detail t
    = (Raise e, t ++ [EvConfigure key]) /\
  get_important_panels W profiles pages client prompt instructions detail t
    = (Raise e, t ++ [EvConfigure key]).
Proof.
  intros Hk Hne Hf.
  unfold analyze_images_with_gpt4_vision, get_important_panels.
  rewrite !(bind_Return _ _ _ _ _ (get_gemini_model_key _ _ _ Hk Hne)).
  destruct (fails_first_app _ _ _ _ Hf) as [Hp|[Hp Hg]].
  - rewrite !(bind_Raise _ _ _ _ _ (mapM_fails_first _ _ _ Hp _)).
    split; reflexivity.
  - destruct (mapM_base64_to_pil_ok _ _ Hp) as (imgs & Hi).
    rewrite !(bind_Return _ _ _ _ _ (Hi _)).
    rewrite !(bind_Raise _ _ _ _ _ (mapM_fails_first _ _ _ Hg _)).
    split; reflexivity.
Qed.

(** X6. When an image of the profiles, the chapter starts or the pages,
    the first in that order, does not decode, [detect_important_pages]
    raises the decoder's exception after configuring the client and before
    any request. *)
Theorem detect_undecodable_image_raises_before_request
    (profiles chapters pages : list pystr) (key : pystr) (e : exn)
    (t : list event) :
  os_getenv W (str "GOOGLE_API_KEY") = Some key ->
  key <> [] ->
  fails_first W (profiles ++ chapters ++ pages) e ->
  detect_important_pages W profiles chapters pages client
    prompt instructions detail t
    = (Raise e, t ++ [EvConfigure key]).
Proof.
  intros Hk Hne Hf. unfold detect_important_pages.
  rewrite (bind_Return _ _ _ _ _ (get_gemini_model_key _ _ _ Hk Hne)).
  destruct (fails_first_app _ _ _ _ Hf) as [Hp|[Hp Hf']].
  { rewrite (bind_Raise _ _ _ _ _ (mapM_fails_first _ _ _ Hp _)). reflexivity. }
  destruct (mapM_base64_to_pil_ok _ _ Hp) as (imgs & Hi).
  rewrite (bind_Return _ _ _ _ _ (Hi _)).
  destruct (fails_first_app _ _ _ _ Hf') as [Hc|[Hc Hg]].
  { rewrite (bind_Raise _ _ _ _ _ (mapM_fails_first _ _ _ Hc _)). reflexivity. }
  destruct (mapM_base64_to_pil_ok _ _ Hc) as (imgs' & Hi').
  rewrite (bind_Return _ _ _ _ _ (Hi' _)).
  rewrite (bind_Raise _ _ _ _ _ (mapM_fails_first _ _ _ Hg _)). reflexivity.
Qed.

(** X7. When the request succeeds and reading [response.text] raises [e],
    [analyze_images_with_gpt4_vision] and [detect_important_pages] raise
    [e]; in [get_important_panels] the read is inside the [try]: when [e]
    is an instance of [Exception] the operation prints its diagnostic line
    and returns [{"total_tokens": 0, "parsed_response": []}] (the exception
    of the print leaves it, if the print raises), and [e] is raised when it
    is not an instance of [Exception]. *)
Theorem response_text_error_policy
    (profiles chapters pages : list pystr) (e : exn) (t : list event) :
  credential_set W ->
  Forall (decodable W) profiles ->
  Forall (decodable W) chapters ->
  Forall (decodable W) pages ->
  remote_replies W (Return {| text := Raise e |}) ->
  fst (analyze_images_with_gpt4_vision W profiles pages client
         prompt instructions detail t) = Raise e /\
  fst (detect_important_pages W profiles chapters pages client
         prompt instructions detail t) = Raise e /\
  fst (get_important_panels W profiles pages client
         prompt instructions detail t) =
    if issubclass_Exception (exn_class e)
    then after_print W (panel_diagnostic W e)
           (Return (structured_result (PyList [])))
    else Raise e.
Proof.
  intros Hcred Hp Hc Hg Hr. repeat split.
  - unfold analyze_images_with_gpt4_vision.
    to_remote Hcred. decode Hp. decode Hg.
    rewrite (bind_Return _ _ _ _ _ (generate_content_replies _ _ _ _ _ _ Hr)).
    reflexivity.
  - unfold detect_important_pages.
    to_remote Hcred. decode Hp. decode Hc. decode Hg.
    rewrite (bind_Return _ _ _ _ _ (generate_content_replies _ _ _ _ _ _ Hr)).
    reflexivity.
  - apply (get_important_panels_handler W Client client
             prompt instructions detail profiles pages _ e t
             Hcred Hp Hg Hr).
    right. reflexivity.
Qed.

(** X8. No operation retries: whatever the environment, the decoders and
    the remote model do, a call only adds to the trace of effects, and at
    most one request to the remote model is among what it adds. *)
Theorem at_most_one_request (profiles chapters pages : list pystr) :
  sends_at_most 1
    (analyze_images_with_gpt4_vision W profiles pages client
       prompt instructions detail) /\
  sends_at_most 1
    (detect_important_pages W profiles chapters pages client
       prompt instructions detail) /\
  sends_at_most 1
    (get_important_panels W profiles pages client
       prompt instructions detail).
Proof.
  assert (Hmap : forall l, sends_at_most 0 (mapM (base64_to_pil W) l)).
  { intros l. apply sends_mapM, sends_base64_to_pil. }
  repeat split.
  - unfold analyze_images_with_gpt4_vision.
    apply (sends_bind 0 1 1); [apply sends_get_gemini_model| |lia]. intros model.
    apply (sends_bind 0 1 1); [apply Hmap| |lia]. intros imgs1.
    apply (sends_bind 0 1 1); [apply Hmap| |lia]. intros imgs2.
    apply (sends_bind 1 0 1); [apply sends_generate_content| |lia]. intros resp.
    apply (sends_bind 0 0 0); [apply sends_lift| |lia]. intros T.
    apply sends_ret.
  - unfold detect_important_pages.
    apply (sends_bind 0 1 1); [apply sends_get_gemini_model| |lia]. intros model.
    apply (sends_bind 0 1 1); [apply Hmap| |lia]. intros imgs1.
    apply (sends_bind 0 1 1); [apply Hmap| |lia]. intros imgs2.
    apply (sends_bind 0 1 1); [apply Hmap| |lia]. intros imgs3.
    apply (sends_bind 1 0 1); [apply sends_generate_content| |lia]. intros resp.
    apply (sends_bind 0 0 0); [apply sends_lift| |lia]. intros T.
    apply (sends_bind 0 0 0); [| |lia].
    + apply sends_try; [apply sends_lift|]. intros e.
      destruct (re_search brace_pattern T); [apply sends_lift|].
      apply (sends_bind 0 0 0); [apply sends_print| |lia]. intros _.
      apply sends_raise.
    + intros parsed.
      apply (sends_bind 0 0 0); [apply sends_lift| |lia]. intros x.
      apply sends_ret.
  - unfold get_important_panels.
    apply (sends_bind 0 1 1); [apply sends_get_gemini_model| |lia]. intros model.
    apply (sends_bind 0 1 1); [apply Hmap| |lia]. intros imgs1.
    apply (sends_bind 0 1 1); [apply Hmap| |lia]. intros imgs2.
    apply (sends_bind 1 0 1); [| |lia].
    + apply sends_try.
      * apply (sends_bind 1 0 1); [apply sends_generate_content| |lia].
        intros resp.
        apply (sends_bind 0 0 0); [apply sends_lift| |lia]. intros T.
        apply sends_ret.
      * intros e. apply (sends_bind 0 0 0); [apply sends_print| |lia].
        intros _. apply sends_ret.
    + intros [T|]; [|apply sends_ret].
      apply (sends_bind 0 0 0); [| |lia].
      * apply sends_try; [apply sends_lift|]. intros e.
        destruct (re_search brace_pattern T); [apply sends_lift|apply sends_ret].
      * intros parsed.
        apply (sends_bind 0 0 0); [apply sends_lift| |lia]. intros x.
        apply sends_ret.
Qed.

Lemma returns_only_detect_shape (profiles chapters pages : list pystr) :
  returns_only (fun d => exists x, d = structured_result x)
    (detect_important_pages W profiles chapters pages client
       prompt instructions detail).
Proof.
  unfold detect_important_pages.
  repeat (apply returns_bind; intros ?).
  apply returns_ret. eexists. reflexivity.
Qed.

Lemma returns_only_panels_shape (profiles panels : list pystr) :
  returns_only (fun d => exists x, d = structured_result x)
    (get_important_panels W profiles panels client
       prompt instructions detail).
Proof.
  unfold get_important_panels.
  do 4 (apply returns_bind; intros ?).
  match goal with a : option pystr |- _ => destruct a end.
  - repeat (apply returns_bind; intros ?).
    apply returns_ret. eexists. reflexivity.
  - apply returns_ret. eexists. reflexivity.
Qed.

(** X9. Whatever the environment, the decoders and the remote model do, a
    result returned by [detect_important_pages] or by
    [get_important_panels] has exactly the keys [total_tokens] and
    [parsed_response], in that order, and its [total_tokens] is 0. *)
Theorem structured_shape_invariant
    (profiles chapters pages : list pystr) (t : list event) (d : pydict) :
  fst (detect_important_pages W profiles chapters pages client
         prompt instructions detail t) = Return d \/
  fst (get_important_panels W profiles pages client
         prompt instructions detail t) = Return d ->
  dict_keys d = [str "total_tokens"; str "parsed_response"] /\
  dict_get d (str "total_tokens") = Some (PyInt 0).
Proof.
  intros H.
  assert (Hd : exists x, d = structured_result x).
  { destruct H as [H|H]; revert H.
    - apply (returns_only_detect_shape profiles chapters pages t d).
    - apply (returns_only_panels_shape profiles pages t d). }
  destruct Hd as (x & ->). split; reflexivity.
Qed.

(** X10. Whatever the environment, the decoders and the remote model do, a
    result returned by [analyze_images_with_gpt4_vision] has exactly one
    choice and a token count of 0. *)
Theorem legacy_shape_invariant
    (profiles pages : list pystr) (t : list event) (r : MockResponse) :
  fst (analyze_images_with_gpt4_vision W profiles pages client
         prompt instructions detail t) = Return r ->
  List.length (choices r) = 1 /\ total_tokens (usage r) = 0%Z.
Proof.
  revert t r.
  change (returns_only
            (fun r => List.length (choices r) = 1 /\ total_tokens (usage r) = 0%Z)
            (analyze_images_with_gpt4_vision W profiles pages client
               prompt instructions detail)).
  unfold analyze_images_with_gpt4_vision.
  repeat (apply returns_bind; intros ?).
  apply returns_ret. split; reflexivity.
Qed.

(** The effects of the two JSON-mode operations once the credential is set
    and the images decode: the configuration, the request, and at most one
    call of [print]. *)
Lemma detect_important_pages_effects
    (profiles chapters pages : list pystr) (T : pystr) (t : list event) :
  credential_set W ->
  Forall (decodable W) profiles ->
  Forall (decodable W) chapters ->
  Forall (decodable W) pages ->
  remote_replies W (Return {| text := Return T |}) ->
  exists key request,
    is_remote_call request = true /\
    snd (detect_important_pages W profiles chapters pages client
           prompt instructions detail t)
    = t ++ [EvConfigure key; request] ++
      match json_loads (interpreter W) T with
      | Return _ => []
      | Raise caught =>
          if issubclass_JSONDecodeError (exn_class caught) then
            match re_search brace_pattern T with
            | Some _ => []
            | None => [EvPrint parse_diagnostic]
            end
          else []
      end.
Proof.
  intros Hcred Hp Hc Hg Hr.
  unfold detect_important_pages.
  to_remote Hcred. decode Hp. decode Hc. decode Hg.
  rewrite (bind_Return _ _ _ _ _ (generate_content_replies _ _ _ _ _ _ Hr)).
  exists key. eexists (EvGenerateContent _ _ _). split; [reflexivity|].
  unfold bind, try_except, lift, print, emit, raise, ret. cbn [text].
  rewrite <- !app_assoc. simpl app.
  destruct (json_loads (interpreter W) T) as [v|caught].
  - destruct (py_get v _ _); reflexivity.
  - destruct (issubclass_JSONDecodeError (exn_class caught)); [|reflexivity].
    destruct (re_search brace_pattern T) as [group|].
    + destruct (json_loads (interpreter W) group) as [v|e]; [|reflexivity].
      destruct (py_get v _ _); reflexivity.
    + unfold bind, parse_diagnostic.
      destruct (stdout_write W _) as [[]|e]; cbn [snd];
        rewrite <- !app_assoc; reflexivity.
Qed.

Lemma get_important_panels_effects
    (profiles panels : list pystr) (reply : outcome response)
    (t : list event) :
  credential_set W ->
  Forall (decodable W) profiles ->
  Forall (decodable W) panels ->
  remote_replies W reply ->
  exists key request,
    is_remote_call request = true /\
    snd (get_important_panels W profiles panels client
           prompt instructions detail t)
    = t ++ [EvConfigure key; request] ++
      match
        match reply with
        | Return resp => text resp
        | Raise e => Raise e
        end
      with
      | Return _ => []
      | Raise e =>
          if issubclass_Exception (exn_class e)
          then [EvPrint (panel_diagnostic W e)]
          else []
      end.
Proof.
  intros Hcred Hp Hg Hr.
  unfold get_important_panels.
  to_remote Hcred. decode Hp. decode Hg.
  exists key. eexists (EvGenerateContent _ _ _). split; [reflexivity|].
  unfold bind at 1. unfold try_except at 1. unfold bind at 1.
  rewrite (generate_content_replies _ _ _ _ _ _ Hr).
  rewrite <- !app_assoc. simpl app.
  unfold bind, try_except, lift, print, emit, raise, ret, panel_diagnostic.
  destruct reply as [resp|e].
  - destruct (text resp) as [T|e].
    + destruct (json_loads (interpreter W) T) as [v|caught].
      * destruct (py_get v _ _); reflexivity.
      * destruct (issubclass_JSONDecodeError (exn_class caught));
          [|reflexivity].
        destruct (re_search brace_pattern T) as [group|]; [|reflexivity].
        destruct (json_loads (interpreter W) group) as [v|e]; [|reflexivity].
        destruct (py_get v _ _); reflexivity.
    + destruct (issubclass_Exception (exn_class e)); [|reflexivity].
      unfold bind. destruct (stdout_write W _) as [[]|e']; cbn [snd];
        rewrite <- !app_assoc; reflexivity.
  - destruct (issubclass_Exception (exn_class e)); [|reflexivity].
    unfold bind. destruct (stdout_write W _) as [[]|e']; cbn [snd];
      rewrite <- !app_assoc; reflexivity.
Qed.

(** X11. When the strict parse of the response text raises
    [JSONDecodeError] and the brace pattern matches, neither JSON-mode
    operation can fail at [.get]: what the pattern matches starts with an
    opening brace, so [json.loads] returns a [dict] for it, whose entry each
    operation returns, or raises, and that exception leaves both
    operations. *)
Theorem strict_failure_outcomes
    (profiles chapters pages : list pystr) (T group : pystr)
    (t : list event) :
  credential_set W ->
  Forall (decodable W) profiles ->
  Forall (decodable W) chapters ->
  Forall (decodable W) pages ->
  remote_replies W (Return {| text := Return T |}) ->
  json_loads (interpreter W) T = Raise (mkExn JSONDecodeError T) ->
  re_search brace_pattern T = Some group ->
  match json_loads (interpreter W) group with
  | Return v =>
      exists d,
        v = PyDict d /\
        fst (detect_important_pages W profiles chapters pages client
               prompt instructions detail t)
          = Return (structured_result
                      match dict_get d (str "important_pages") with
                      | Some x => x
                      | None => PyList []
                      end) /\
        fst (get_important_panels W profiles pages client
               prompt instructions detail t)
          = Return (structured_result
                      match dict_get d (str "important_panels") with
                      | Some x => x
                      | None => PyList []
                      end)
  | Raise e =>
      fst (detect_important_pages W profiles chapters pages client
             prompt instructions detail t) = Raise e /\
      fst (get_important_panels W profiles pages client
             prompt instructions detail t) = Raise e
  end.
Proof.
  intros Hcred Hp Hc Hg Hr Hbad Hm.
  rewrite (detect_important_pages_says W Client client prompt instructions detail _ _ _ _ _ Hcred Hp Hc Hg Hr).
  rewrite (get_important_panels_says W Client client prompt instructions detail _ _ _ _ Hcred Hp Hg Hr).
  rewrite Hbad, Hm. cbn [exn_class issubclass_JSONDecodeError].
  destruct (re_search_brace_starts _ _ Hm) as (m & ->).
  destruct (json_loads (interpreter W) (Ch.lbrace :: m)) as [v|e] eqn:Hv.
  - destruct (json_loads_object _ _ _ Hv) as (d & ->). exists d.
    cbn [py_get]. repeat split.
  - split; reflexivity.
Qed.

(** X12. When [json.loads] returns an object for the response text,
    [detect_important_pages] returns what the object holds under
    [important_pages] and [get_important_panels] what it holds under
    [important_panels], as it is, whatever its type; [[]] when the key is
    absent. *)
Theorem object_field_is_returned_as_is
    (profiles chapters pages : list pystr) (T : pystr) (d : pydict)
    (t : list event) :
  credential_set W ->
  Forall (decodable W) profiles ->
  Forall (decodable W) chapters ->
  Forall (decodable W) pages ->
  remote_replies W (Return {| text := Return T |}) ->
  json_loads (interpreter W) T = Return (PyDict d) ->
  fst (detect_important_pages W profiles chapters pages client
         prompt instructions detail t)
    = Return (structured_result
                match dict_get d (str "important_pages") with
                | Some x => x
                | None => PyList []
                end) /\
  fst (get_important_panels W profiles pages client
         prompt instructions detail t)
    = Return (structured_result
                match dict_get d (str "important_panels") with
                | Some x => x
                | None => PyList []
                end).
Proof.
  intros Hcred Hp Hc Hg Hr Hv. split.
  - rewrite (detect_important_pages_says W Client client prompt instructions detail _ _ _ _ _ Hcred Hp Hc Hg Hr), Hv.
    reflexivity.
  - rewrite (get_important_panels_says W Client client prompt instructions detail _ _ _ _ Hcred Hp Hg Hr), Hv.
    reflexivity.
Qed.

(** X13. When the strict parse of the response text raises
    [JSONDecodeError], [get_important_panels] parses the part of the text
    from its first opening brace to its last closing brace; when
    [json.loads] returns a value for that part, the operation returns its
    [important_panels] entry (or [[]]), whatever surrounds the braces. *)
Theorem panels_fallback_parses_first_to_last_brace
    (profiles panels : list pystr) (pre mid post : pystr)
    (v : pyvalue) (t : list event) :
  credential_set W ->
  Forall (decodable W) profiles ->
  Forall (decodable W) panels ->
  ~ In Ch.lbrace pre ->
  ~ In Ch.rbrace post ->
  remote_replies W
    (Return {| text :=
                 Return (pre ++ Ch.lbrace :: mid ++ Ch.rbrace :: post) |}) ->
  json_loads (interpreter W) (pre ++ Ch.lbrace :: mid ++ Ch.rbrace :: post)
    = Raise (mkExn JSONDecodeError
               (pre ++ Ch.lbrace :: mid ++ Ch.rbrace :: post)) ->
  json_loads (interpreter W) (Ch.lbrace :: mid ++ [Ch.rbrace]) = Return v ->
  exists d,
    v = PyDict d /\
    fst (get_important_panels W profiles panels client
           prompt instructions detail t)
      = Return (structured_result
                  match dict_get d (str "important_panels") with
                  | Some x => x
                  | None => PyList []
                  end).
Proof.
  intros Hcred Hp Hg Hpre Hpost Hr Hbad Hv.
  pose proof (re_search_brace_first_last pre mid post Hpre Hpost) as Hm.
  destruct (json_loads_object _ _ _ Hv) as (d & ->). exists d.
  split; [reflexivity|].
  rewrite (get_important_panels_says W Client client prompt instructions detail _ _ _ _ Hcred Hp Hg Hr).
  rewrite Hbad, Hm, Hv. reflexivity.
Qed.

(** X14. When the strict parse of the response text raises
    [JSONDecodeError], the brace pattern matches, and [json.loads] raises
    [e] on the matched text, [detect_important_pages] raises [e], not the
    error of the response text, and does not call [print]: its effects are
    the configuration and the request. *)
Theorem detect_reparse_error_propagates
    (profiles chapters pages : list pystr) (T group : pystr) (e : exn)
    (t : list event) :
  credential_set W ->
  Forall (decodable W) profiles ->
  Forall (decodable W) chapters ->
  Forall (decodable W) pages ->
  remote_replies W (Return {| text := Return T |}) ->
  json_loads (interpreter W) T = Raise (mkExn JSONDecodeError T) ->
  re_search brace_pattern T = Some group ->
  json_loads (interpreter W) group = Raise e ->
  fst (detect_important_pages W profiles chapters pages client
         prompt instructions detail t)
    = Raise e /\
  exists key request,
    is_remote_call request = true /\
    snd (detect_important_pages W profiles chapters pages client
           prompt instructions detail t)
    = t ++ [EvConfigure key; request].
Proof.
  intros Hcred Hp Hc Hg Hr Hbad Hm Hbad'. split.
  - rewrite (detect_important_pages_says W Client client prompt instructions detail _ _ _ _ _ Hcred Hp Hc Hg Hr).
    rewrite Hbad, Hm, Hbad'. reflexivity.
  - destruct (detect_important_pages_effects profiles chapters pages T t
                Hcred Hp Hc Hg Hr) as (key & request & Hreq & E).
    exists key, request. split; [exact Hreq|].
    rewrite E, Hbad, Hm. reflexivity.
Qed.

(** X15. When the strict parse of the response text raises
    [JSONDecodeError] and the text has no brace-delimited part, the effects
    of [detect_important_pages] are the configuration, the request and one
    call of [print], with the line
    [Failed to parse JSON from Gemini response.]. *)
Theorem detect_unrecoverable_prints_diagnostic
    (profiles chapters pages : list pystr) (T : pystr) (t : list event) :
  credential_set W ->
  Forall (decodable W) profiles ->
  Forall (decodable W) chapters ->
  Forall (decodable W) pages ->
  remote_replies W (Return {| text := Return T |}) ->
  json_loads (interpreter W) T = Raise (mkExn JSONDecodeError T) ->
  ~ has_braces T ->
  exists key request,
    is_remote_call request = true /\
    snd (detect_important_pages W profiles chapters pages client
           prompt instructions detail t)
    = t ++ [ EvConfigure key; request;
             EvPrint (str "Failed to parse JSON from Gemini response.") ].
Proof.
  intros Hcred Hp Hc Hg Hr Hbad Hnb.
  destruct (detect_important_pages_effects profiles chapters pages T t
              Hcred Hp Hc Hg Hr) as (key & request & Hreq & E).
  exists key, request. split; [exact Hreq|].
  rewrite E, Hbad, (re_search_brace_None _ Hnb).
  reflexivity.
Qed.

(** X16. When the remote invocation raises an instance [e] of [Exception],
    the effects of [get_important_panels] are the configuration, the
    request and one call of [print], with the line
    [Gemini Error during panel identification: ] followed by [str(e)]. *)
Theorem panels_swallowed_error_is_printed
    (profiles panels : list pystr) (e : exn) (t : list event) :
  credential_set W ->
  Forall (decodable W) profiles ->
  Forall (decodable W) panels ->
  remote_replies W (Raise e) ->
  issubclass_Exception (exn_class e) = true ->
  exists key request,
    is_remote_call request = true /\
    snd (get_important_panels W profiles panels client
           prompt instructions detail t)
    = t ++ [ EvConfigure key; request;
             EvPrint (str "Gemini Error during panel identification: "
                        ++ exn_str W e) ].
Proof.
  intros Hcred Hp Hg Hr He.
  destruct (get_important_panels_effects profiles panels (Raise e) t
              Hcred Hp Hg Hr) as (key & request & Hreq & E).
  exists key, request. split; [exact Hreq|].
  rewrite E, He. reflexivity.
Qed.

(** X17. Whatever text the model returns, [get_important_panels] prints
    nothing: a response it cannot parse becomes the empty result with no
    diagnostic. *)
Theorem panels_text_reply_is_silent
    (profiles panels : list pystr) (T : pystr) (t : list event) :
  credential_set W ->
  Forall (decodable W) profiles ->
  Forall (decodable W) panels ->
  remote_replies W (Return {| text := Return T |}) ->
  exists key request,
    is_remote_call request = true /\
    snd (get_important_panels W profiles panels client
           prompt instructions detail t)
    = t ++ [EvConfigure key; request].
Proof.
  intros Hcred Hp Hg Hr.
  destruct (get_important_panels_effects profiles panels _ t
              Hcred Hp Hg Hr) as (key & request & Hreq & E).
  exists key, request. split; [exact Hreq|].
  rewrite E. reflexivity.
Qed.

End MoreProperties.

(** * The further properties at concrete inputs *)

Lemma world_with_decodes_to (reply : outcome response) (l : list pystr) :
  Forall2 (decodes_to (world_with reply)) l (List.map PILImage l).
Proof.
  induction l as [|s l IH]; constructor; [|exact IH].
  exists s. split; reflexivity.
Qed.

Lemma empty_credential_raises_first_witness :
  analyze_images_with_gpt4_vision
    (world_of (Some []) (fun _ => None) (says (js "{}")))
    sample_images sample_images tt (str "p") (str "i") (str "low") []
  = (Raise missing_credential_error, []) /\
  detect_important_pages
    (world_of (Some []) (fun _ => None) (says (js "{}")))
    sample_images sample_images sample_images tt
    (str "p") (str "i") (str "low") []
  = (Raise missing_credential_error, []) /\
  get_important_panels
    (world_of (Some []) (fun _ => None) (says (js "{}")))
    sample_images sample_images tt (str "p") (str "i") (str "low") []
  = (Raise missing_credential_error, []).
Proof.
  apply (empty_credential_raises_first
           (world_of (Some []) (fun _ => None) (says (js "{}")))
           unit tt (str "p") (str "i") (str "low")
           sample_images sample_images sample_images []).
  reflexivity.
Defined.

Lemma analyze_images_request_witness :
  exists request,
    snd (analyze_images_with_gpt4_vision
           (world_of (Some (str "secret")) (fun _ => None)
              (Raise connection_error))
           sample_images sample_images tt (str "p") (str "i") (str "low") [])
    = [EvConfigure (str "secret"); request] /\
    request
    = EvGenerateContent {| model_name := str "gemini-1.5-pro" |}
        [ Text (str "System Instructions: i" ++ [Ch.lf; Ch.lf]);
          Text (str "Here are some character profile pages, for your reference:");
          Img (PILImage (str "aW1hZ2Ux")); Img (PILImage (str "aW1hZ2Uy"));
          Text ([Ch.lf] ++ str "Prompt: p" ++ [Ch.lf]);
          Img (PILImage (str "aW1hZ2Ux")); Img (PILImage (str "aW1hZ2Uy")) ]
        None.
Proof.
  eexists. split.
  - apply (analyze_images_request
             (world_of (Some (str "secret")) (fun _ => None)
                (Raise connection_error))
             unit tt (str "p") (str "i") (str "low")
             sample_images sample_images (str "secret")
             (List.map PILImage sample_images)
             (List.map PILImage sample_images) []).
    + reflexivity.
    + discriminate.
    + repeat constructor; eexists; split; reflexivity.
    + repeat constructor; eexists; split; reflexivity.
  - reflexivity.
Defined.

Lemma detect_important_pages_request_witness :
  exists rest,
    snd (detect_important_pages (world_with (says (str "no")))
           sample_images [] [str "aW1hZ2Uz"] tt
           (str "p") (str "i") (str "low") [])
    = [] ++ EvConfigure (str "secret")
        :: EvGenerateContent (chosen_model (world_with (says (str "no"))))
             ([ Text (str "System Instructions: " ++ str "i" ++ [Ch.lf; Ch.lf]);
                Text (str "Here are some character profile pages, for your reference:") ]
              ++ List.map Img (List.map PILImage sample_images)
              ++ [ Text ([Ch.lf] ++ str "Here are some chapter start pages, for your reference:") ]
              ++ List.map Img []
              ++ [ Text ([Ch.lf] ++ str "Prompt: " ++ str "p" ++ [Ch.lf]) ]
              ++ List.map Img [PILImage (str "aW1hZ2Uz")])
             (Some json_mode)
        :: rest /\
    remote_calls rest = 0.
Proof.
  apply (detect_important_pages_request (world_with (says (str "no")))
           unit tt (str "p") (str "i") (str "low")
           sample_images [] [str "aW1hZ2Uz"] (str "secret")
           (List.map PILImage sample_images) []
           [PILImage (str "aW1hZ2Uz")] []).
  - reflexivity.
  - discriminate.
  - apply world_with_decodes_to.
  - constructor.
  - apply (world_with_decodes_to _ [str "aW1hZ2Uz"]).
Defined.

Lemma get_important_panels_request_witness :
  exists rest,
    snd (get_important_panels (world_with (Raise connection_error))
           sample_images [str "aW1hZ2Uz"] tt
           (str "p") (str "i") (str "low") [])
    = [] ++ EvConfigure (str "secret")
        :: EvGenerateContent
             (chosen_model (world_with (Raise connection_error)))
             ([ Text (str "System Instructions: " ++ str "i" ++ [Ch.lf; Ch.lf]);
                Text (str "Here are some character profile pages, for your reference:") ]
              ++ List.map Img (List.map PILImage sample_images)
              ++ [ Text ([Ch.lf] ++ str "Prompt: " ++ str "p" ++ [Ch.lf]) ]
              ++ List.map Img [PILImage (str "aW1hZ2Uz")])
             (Some json_mode)
        :: rest /\
    remote_calls rest = 0.
Proof.
  apply (get_important_panels_request (world_with (Raise connection_error))
           unit tt (str "p") (str "i") (str "low")
           sample_images [str "aW1hZ2Uz"] (str "secret")
           (List.map PILImage sample_images)
           [PILImage (str "aW1hZ2Uz")] []).
  - reflexivity.
  - discriminate.
  - apply world_with_decodes_to.
  - apply (world_with_decodes_to _ [str "aW1hZ2Uz"]).
Defined.

Lemma damaged_images_fail (reply : outcome response) (l : list pystr) :
  fails_first (world_of (Some (str "secret")) bad_padding reply)
    (sample_images ++ damaged_images ++ l) padding_error.
Proof.
  exists (sample_images ++ [str "aW1hZ2Uz"]), (str "aW1hZ2U"), l.
  split; [reflexivity|]. split.
  - repeat constructor; eexists; eexists; split; reflexivity.
  - left. reflexivity.
Qed.

Lemma undecodable_image_raises_before_request_witness :
  analyze_images_with_gpt4_vision
    (world_of (Some (str "secret")) bad_padding (says (js "{}")))
    sample_images damaged_images tt (str "p") (str "i") (str "low") []
  = (Raise padding_error, [] ++ [EvConfigure (str "secret")]) /\
  get_important_panels
    (world_of (Some (str "secret")) bad_padding (says (js "{}")))
    sample_images damaged_images tt (str "p") (str "i") (str "low") []
  = (Raise padding_error, [] ++ [EvConfigure (str "secret")]).
Proof.
  apply (undecodable_image_raises_before_request
           (world_of (Some (str "secret")) bad_padding (says (js "{}")))
           unit tt (str "p") (str "i") (str "low")
           sample_images damaged_images (str "secret") padding_error []).
  - reflexivity.
  - discriminate.
  - apply (damaged_images_fail _ []).
Defined.

Lemma detect_undecodable_image_raises_before_request_witness :
  detect_important_pages
    (world_of (Some (str "secret")) bad_padding (says (js "{}")))
    sample_images damaged_images sample_images tt
    (str "p") (str "i") (str "low") []
  = (Raise padding_error, [] ++ [EvConfigure (str "secret")]).
Proof.
  apply (detect_undecodable_image_raises_before_request
           (world_of (Some (str "secret")) bad_padding (says (js "{}")))
           unit tt (str "p") (str "i") (str "low")
           sample_images damaged_images sample_images
           (str "secret") padding_error []).
  - reflexivity.
  - discriminate.
  - apply (damaged_images_fail _ sample_images).
Defined.

Lemma response_text_error_policy_witness :
  fst (analyze_images_with_gpt4_vision
         (world_with (Return {| text := Raise blocked_error |}))
         sample_images sample_images tt (str "p") (str "i") (str "low") [])
    = Raise blocked_error /\
  fst (detect_important_pages
         (world_with (Return {| text := Raise blocked_error |}))
         sample_images sample_images sample_images tt
         (str "p") (str "i") (str "low") [])
    = Raise blocked_error /\
  fst (get_important_panels
         (world_with (Return {| text := Raise blocked_error |}))
         sample_images sample_images tt (str "p") (str "i") (str "low") [])
    = Return (structured_result (PyList [])).
Proof.
  apply (response_text_error_policy
           (world_with (Return {| text := Raise blocked_error |}))
           unit tt (str "p") (str "i") (str "low")
           sample_images sample_images sample_images blocked_error []);
    in_world.
Defined.

Lemma structured_shape_invariant_witness :
  dict_keys (structured_result (PyStr (str "all")))
    = [str "total_tokens"; str "parsed_response"] /\
  dict_get (structured_result (PyStr (str "all"))) (str "total_tokens")
    = Some (PyInt 0).
Proof.
  apply (structured_shape_invariant (world_with (says untyped_object_text))
           unit tt (str "p") (str "i") (str "low")
           sample_images sample_images sample_images []
           (structured_result (PyStr (str "all")))).
  left. vm_compute. reflexivity.
Defined.

Lemma legacy_shape_invariant_witness :
  List.length (choices (new_MockResponse (str "A quiet street.") 0)) = 1 /\
  total_tokens (usage (new_MockResponse (str "A quiet street.") 0)) = 0%Z.
Proof.
  apply (legacy_shape_invariant (world_with (says (str "A quiet street.")))
           unit tt (str "p") (str "i") (str "low")
           sample_images sample_images []
           (new_MockResponse (str "A quiet street.") 0)).
  vm_compute. reflexivity.
Defined.

Lemma strict_failure_outcomes_witness :
  fst (detect_important_pages (world_with (says prose_with_braces_text))
         sample_images sample_images sample_images tt
         (str "p") (str "i") (str "low") [])
    = Raise (mkExn JSONDecodeError (str "{1, 2}")) /\
  fst (get_important_panels (world_with (says prose_with_braces_text))
         sample_images sample_images tt
         (str "p") (str "i") (str "low") [])
    = Raise (mkExn JSONDecodeError (str "{1, 2}")).
Proof.
  apply (strict_failure_outcomes (world_with (says prose_with_braces_text))
           unit tt (str "p") (str "i") (str "low")
           sample_images sample_images sample_images
           prose_with_braces_text (str "{1, 2}") []);
    try in_world.
  - vm_compute. reflexivity.
  - vm_compute. reflexivity.
Defined.

Lemma object_field_is_returned_as_is_witness :
  fst (detect_important_pages (world_with (says untyped_object_text))
         sample_images sample_images sample_images tt
         (str "p") (str "i") (str "low") [])
    = Return (structured_result (PyStr (str "all"))) /\
  fst (get_important_panels (world_with (says untyped_object_text))
         sample_images sample_images tt (str "p") (str "i") (str "low") [])
    = Return (structured_result (PyInt 3)).
Proof.
  apply (object_field_is_returned_as_is (world_with (says untyped_object_text))
           unit tt (str "p") (str "i") (str "low")
           sample_images sample_images sample_images
           untyped_object_text
           [ (str "important_pages", PyStr (str "all"));
             (str "important_panels", PyInt 3) ] []);
    try in_world.
  vm_compute. reflexivity.
Defined.

Lemma panels_fallback_parses_first_to_last_brace_witness :
  exists d,
    PyDict [ (str "important_panels",
              PyList [PyDict [ (str "id", PyInt 7) ]]) ] = PyDict d /\
    fst (get_important_panels
           (world_with
              (says (js "Sure: {'important_panels': [{'id': 7}]} Done.")))
           sample_images sample_images tt
           (str "p") (str "i") (str "low") [])
      = Return (structured_result
                  match dict_get d (str "important_panels") with
                  | Some x => x
                  | None => PyList []
                  end).
Proof.
  apply (panels_fallback_parses_first_to_last_brace
           (world_with
              (says (js "Sure: {'important_panels': [{'id': 7}]} Done.")))
           unit tt (str "p") (str "i") (str "low")
           sample_images sample_images
           (str "Sure: ") (js "'important_panels': [{'id': 7}]") (str " Done.")
           (PyDict [ (str "important_panels",
                      PyList [PyDict [ (str "id", PyInt 7) ]]) ]) []);
    try in_world.
  - vm_compute. intuition discriminate.
  - vm_compute. intuition discriminate.
  - vm_compute. reflexivity.
  - vm_compute. reflexivity.
Defined.

Lemma detect_reparse_error_propagates_witness :
  fst (detect_important_pages (world_with (says prose_with_braces_text))
         sample_images sample_images sample_images tt
         (str "p") (str "i") (str "low") [])
    = Raise (mkExn JSONDecodeError (str "{1, 2}")) /\
  exists key request,
    is_remote_call request = true /\
    snd (detect_important_pages (world_with (says prose_with_braces_text))
           sample_images sample_images sample_images tt
           (str "p") (str "i") (str "low") [])
    = [] ++ [EvConfigure key; request].
Proof.
  apply (detect_reparse_error_propagates
           (world_with (says prose_with_braces_text))
           unit tt (str "p") (str "i") (str "low")
           sample_images sample_images sample_images
           prose_with_braces_text (str "{1, 2}")
           (mkExn JSONDecodeError (str "{1, 2}")) []);
    try in_world.
  - vm_compute. reflexivity.
  - vm_compute. reflexivity.
  - vm_compute. reflexivity.
Defined.

Lemma detect_unrecoverable_prints_diagnostic_witness :
  exists key request,
    is_remote_call request = true /\
    snd (detect_important_pages
           (world_with (says (str "I cannot help with that.")))
           sample_images sample_images sample_images tt
           (str "p") (str "i") (str "low") [])
    = [] ++ [ EvConfigure key; request;
              EvPrint (str "Failed to parse JSON from Gemini response.") ].
Proof.
  apply (detect_unrecoverable_prints_diagnostic
           (world_with (says (str "I cannot help with that.")))
           unit tt (str "p") (str "i") (str "low")
           sample_images sample_images sample_images
           (str "I cannot help with that.") []);
    try in_world.
  - vm_compute. reflexivity.
  - intros H. destruct (re_search_brace_complete _ H) as (g & Hg).
    vm_compute in Hg. discriminate Hg.
Defined.

Lemma panels_swallowed_error_is_printed_witness :
  exists key request,
    is_remote_call request = true /\
    snd (get_important_panels (world_with (Raise connection_error))
           sample_images sample_images tt
           (str "p") (str "i") (str "low") [])
    = [] ++ [ EvConfigure key; request;
              EvPrint (str "Gemini Error during panel identification: "
                         ++ str "connection reset") ].
Proof.
  apply (panels_swallowed_error_is_printed
           (world_with (Raise connection_error))
           unit tt (str "p") (str "i") (str "low")
           sample_images sample_images connection_error []);
    try in_world.
  reflexivity.
Defined.

Lemma panels_text_reply_is_silent_witness :
  exists key request,
    is_remote_call request = true /\
    snd (get_important_panels
           (world_with (says (str "I cannot help with that.")))
           sample_images sample_images tt
           (str "p") (str "i") (str "low") [])
    = [] ++ [EvConfigure key; request].
Proof.
  apply (panels_text_reply_is_silent
           (world_with (says (str "I cannot help with that.")))
           unit tt (str "p") (str "i") (str "low")
           sample_images sample_images (str "I cannot help with that.") []);
    in_world.
Defined.

(** ** The limits and the standard output at work *)

(** With the standard output closed, the handler of
    [get_important_panels] raises from its [print], and so does the one of
    [detect_important_pages]. *)
Example closed_stdout_leaves_the_handlers :
  fst (get_important_panels
         (world_with_closed_stdout (Raise connection_error))
         sample_images sample_images tt (str "p") (str "i") (str "low") [])
    = Raise closed_stdout_error /\
  fst (detect_important_pages
         (world_with_closed_stdout (says (str "I cannot help with that.")))
         sample_images sample_images sample_images tt
         (str "p") (str "i") (str "low") [])
    = Raise closed_stdout_error.
Proof. split; vm_compute; reflexivity. Qed.

(** An exception that derives from [BaseException] only passes
    [except Exception]. *)
Example cancelled_error_leaves_panels :
  fst (get_important_panels
         (world_with
            (Raise (mkExn (OtherBaseException "asyncio.CancelledError") [])))
         sample_images sample_images tt (str "p") (str "i") (str "low") [])
    = Raise (mkExn (OtherBaseException "asyncio.CancelledError") []).
Proof. vm_compute. reflexivity. Qed.

(** An integer literal beyond the digit limit stops [json.loads] with a
    plain [ValueError], which no handler of the module catches; within the
    limit the text is a number, and [.get] fails. *)
Example long_integer_raises_value_error :
  json_loads sample_limits long_integer_text
    = Raise (mkExn ValueError long_integer_text) /\
  fst (detect_important_pages (world_with (says long_integer_text))
         sample_images sample_images sample_images tt
         (str "p") (str "i") (str "low") [])
    = Raise (mkExn ValueError long_integer_text) /\
  fst (get_important_panels (world_with (says long_integer_text))
         sample_images sample_images tt (str "p") (str "i") (str "low") [])
    = Raise (mkExn ValueError long_integer_text) /\
  is_Return (json_loads (unlimited_for long_integer_text) long_integer_text)
    = true.
Proof. repeat split; vm_compute; reflexivity. Qed.

(** The recursion limit is hit at the container that exceeds it, before
    any later error of the text. *)
Example nesting_at_the_limit :
  json_loads sample_limits
    (List.repeat Ch.lbracket 992 ++ List.repeat Ch.rbracket 992)
    <> Raise (mkExn RecursionError
                (List.repeat Ch.lbracket 992 ++ List.repeat Ch.rbracket 992)) /\
  json_loads sample_limits
    (List.repeat Ch.lbracket 993 ++ List.repeat Ch.rbracket 993)
    = Raise (mkExn RecursionError
               (List.repeat Ch.lbracket 993 ++ List.repeat Ch.rbracket 993)).
Proof.
  split; [|vm_compute; reflexivity].
  intros H. vm_compute in H. discriminate H.
Qed.
